(** * Availability and slot-scheduling engine of the booking application

    A shallow embedding of
    - [src/lib/utils/timeUtils.ts]            ([timeToMinutes], [formatTime]),
    - [src/lib/services/availabilityService.ts]
      ([getStaffDetails], [getWorkingInterval], [getDbBusyBlocks],
       [getGcalBusyBlocks], [checkAvailability], [calculateFreeIntervals],
       [generateSlots]),
    - [src/app/api/slots/route.ts]            ([GET]),
    - [src/app/api/bookings/route.ts]         ([POST]),
    - [src/app/api/admin/staff/[id]/working-hours/route.ts]
      (the validation and the inserts of [PUT]),
    together with the properties of the specification that concern them.
    The repository holds two copies of [availabilityService.ts]; the one
    embedded here is the copy that has the bodies of
    [calculateFreeIntervals] and [generateSlots].

    Conventions of the embedding.
    - A JavaScript number that the code only uses as an integer is a [Z];
      [NaN] is the [None] of an [option Z].  Numbers with a fractional
      part and the infinite numbers are not modelled, and a [Z] is exact
      where a JavaScript number rounds: the two agree on the integers of
      magnitude up to 2^53 - 1.
    - A JavaScript string is a [string]: a sequence of code units below
      256.
    - A UTC instant (a [moment] object) is a [Z], its number of
      milliseconds since the epoch; the local-time arithmetic of [moment-timezone] is a
      field of the environment.
    - An [async] function that may reject is a computation in the monad
      [M]: it returns a value or throws, and it records the calls it makes
      on the database client and on the Google client. *)

From Stdlib Require Import ZArith List String Ascii Bool Lia DecimalString.
From Equations Require Import Equations.
Import ListNotations.

Local Open Scope string_scope.
Local Open Scope Z_scope.

(* ===================================================================== *)
(** * Part I. The embedding                                               *)
(* ===================================================================== *)

(** ** [src/lib/utils/timeUtils.ts] *)

Module TimeUtils.

(** The value [-1] that [timeToMinutes] returns for an invalid input. *)
Definition invalid : Z := -1.

(** [String.prototype.split] with a one-character separator. *)
Fixpoint split (sep : ascii) (s : string) : list string :=
  match s with
  | EmptyString => [EmptyString]
  | String c rest =>
      if Ascii.eqb c sep then EmptyString :: split sep rest
      else match split sep rest with
           | p :: ps => String c p :: ps
           | [] => [String c EmptyString]
           end
  end.

(** White space that [parseInt] skips, among the code units below 256:
    TAB, LF, VT, FF, CR, SPACE and NO-BREAK SPACE. *)
Definition is_white_space (c : ascii) : bool :=
  let n := Z.of_N (N_of_ascii c) in
  ((9 <=? n) && (n <=? 13)) || (n =? 32) || (n =? 160).

Definition digit_value (c : ascii) : option Z :=
  let n := Z.of_N (N_of_ascii c) in
  if (48 <=? n) && (n <=? 57) then Some (n - 48) else None.

Fixpoint skip_white_space (s : string) : string :=
  match s with
  | String c rest => if is_white_space c then skip_white_space rest else s
  | EmptyString => s
  end.

(** The longest prefix of decimal digits, read as a number; [acc] is
    [None] as long as no digit has been read. *)
Fixpoint leading_digits (acc : option Z) (s : string) : option Z :=
  match s with
  | String c rest =>
      match digit_value c with
      | Some d =>
          leading_digits
            (Some (10 * match acc with Some a => a | None => 0 end + d)) rest
      | None => acc
      end
  | EmptyString => acc
  end.

(** [parseInt(s, 10)]: leading white space is skipped, one sign is
    accepted, the digits that follow are read and whatever comes after
    them is ignored; [None] is [NaN] (no digit at that place).  The
    value is the exact integer that the digits write; JavaScript rounds
    it to a number, which is another integer only above 2^53 - 1. *)
Definition parseInt (s : string) : option Z :=
  let s1 := skip_white_space s in
  let '(negative, s2) :=
    match s1 with
    | String "-"%char rest => (true, rest)
    | String "+"%char rest => (false, rest)
    | _ => (false, s1)
    end in
  match leading_digits None s2 with
  | Some v => Some (if negative then - v else v)
  | None => None
  end.

(** [timeToMinutes(timeStr)]; the argument is [None] for [null] and
    [undefined]. *)
Definition timeToMinutes (timeStr : option string) : Z :=
  match timeStr with
  | None => invalid
  | Some EmptyString => invalid
  | Some s =>
      match split ":"%char s with
      | p0 :: p1 :: _ =>
          match parseInt p0, parseInt p1 with
          | Some hours, Some minutes =>
              if (hours <? 0) || (hours >? 23) || (minutes <? 0) || (minutes >? 59)
              then invalid
              else hours * 60 + minutes
          | _, _ => invalid
          end
      | _ => invalid
      end
  end.

(** [String(n)] for an integer [n] that a number holds exactly, of
    magnitude up to 2^53 - 1: its decimal digits. *)
Definition String_of_int (n : Z) : string :=
  NilZero.string_of_int (Z.to_int n).

Fixpoint repeat_char (c : ascii) (n : nat) : string :=
  match n with
  | O => EmptyString
  | S n' => String c (repeat_char c n')
  end.

(** [s.padStart(width, c)]. *)
Definition padStart (width : nat) (c : ascii) (s : string) : string :=
  repeat_char c (width - String.length s) ++ s.

(** [formatTime(totalMinutes)] for an argument that is an integer, or
    [None] for [null], [undefined] and [NaN].  The guard of the source
    also lets the infinite numbers and the numbers with a fractional
    part through; these are outside the embedding. *)
Definition formatTime (totalMinutes : option Z) : string :=
  let t0 :=
    match totalMinutes with
    | Some t => if t <? 0 then 0 else t
    | None => 0
    end in
  let t := Z.rem t0 (24 * 60) in
  let hours := t / 60 in
  let mins := Z.rem t 60 in
  padStart 2 "0"%char (String_of_int hours) ++ ":" ++
  padStart 2 "0"%char (String_of_int mins).

End TimeUtils.

(** ** Interval arithmetic of [src/lib/services/availabilityService.ts] *)

Module Intervals.

(** The objects [{start, end}] of the slot helpers: a half-open range of
    minutes of the local day. *)
Record Range : Type := mkRange { start : Z; end_ : Z }.

(** [busyBlocks.sort((a, b) => a.start - b.start)]: the sort of
    [Array.prototype.sort] is stable, so it is the insertion of each
    element before the first one with a start that is not smaller. *)
Fixpoint insert_by_start (x : Range) (l : list Range) : list Range :=
  match l with
  | [] => [x]
  | y :: l' =>
      if start x <=? start y then x :: y :: l'
      else y :: insert_by_start x l'
  end.

Fixpoint sort_by_start (l : list Range) : list Range :=
  match l with
  | [] => []
  | x :: l' => insert_by_start x (sort_by_start l')
  end.

(** The body of the inner loop of [calculateFreeIntervals]: what one
    free interval leaves once [busy] is taken out of it. *)
Definition subtract_from (busy free : Range) : list Range :=
  if end_ free <=? start free then []
  else
    let overlapStart := Z.max (start free) (start busy) in
    let overlapEnd := Z.min (end_ free) (end_ busy) in
    if overlapStart <? overlapEnd then
      (if start free <? start busy
       then [mkRange (start free) (start busy)] else [])
      ++
      (if end_ free >? end_ busy
       then [mkRange (end_ busy) (end_ free)] else [])
    else [free].

(** One turn of the outer loop. *)
Definition subtract_busy (freeIntervals : list Range) (busy : Range)
  : list Range :=
  if end_ busy <=? start busy then freeIntervals
  else flat_map (subtract_from busy) freeIntervals.

Definition calculateFreeIntervals (workingIntervals busyBlocks : list Range)
  : list Range :=
  fold_left subtract_busy (sort_by_start busyBlocks) workingIntervals.

(** [const step = Math.max(slotStepMinutes, 1)]. *)
Definition step_of (slotStepMinutes : Z) : Z := Z.max slotStepMinutes 1.

(** The [while] loop of [generateSlots] for one interval that ends at
    [limit]; it stops because the step is at least one minute. *)
Equations? slots_while (serviceDurationMinutes slotStepMinutes limit : Z)
           (currentSlotStart : Z) : list Z
  by wf (Z.to_nat (limit - serviceDurationMinutes - currentSlotStart + 1)) lt :=
  slots_while d stp limit cur with Z_le_dec (cur + d) limit := {
    | left _ => cur :: slots_while d stp limit (cur + step_of stp)
    | right _ => [] }.
Proof. unfold step_of. lia. Qed.

Definition slots_of_interval (serviceDurationMinutes slotStepMinutes : Z)
           (interval : Range) : list Z :=
  if (end_ interval <=? start interval)
     || (end_ interval - start interval <? serviceDurationMinutes)
  then []
  else slots_while serviceDurationMinutes slotStepMinutes
                   (end_ interval) (start interval).

(** [generateSlots(freeIntervals, serviceDurationMinutes, slotStepMinutes)];
    the route passes the step, whose default is 15. *)
Definition generateSlots (freeIntervals : list Range)
           (serviceDurationMinutes slotStepMinutes : Z) : list Z :=
  flat_map (slots_of_interval serviceDurationMinutes slotStepMinutes)
           freeIntervals.

End Intervals.

(** ** Effects: exceptions and the record of outside calls *)

Module Effects.

(** The SQL statements that the modelled code sends with
    [dbClient.query]. *)
Inductive Query : Type :=
| Begin
| Commit
| Rollback
| SelectService (serviceId : Z) (forUpdate : bool)
| SelectStaff (staffId : Z) (forUpdate : bool)
| SelectWorkingHours (staffId dayOfWeek : Z)
| SelectBookingConflicts (staffId startUTC endUTC : Z) (exclude : option Z)
| SelectEligibleStaff (serviceId : Z) (staffId : option Z)
| SelectCustomerByEmail (email : string)
| InsertCustomer (name email : string) (phone : option string)
| InsertBooking (staffId serviceId customerId startUTC endUTC : Z)
                (status : string)
| UpdateBookingEventId (eventId : string) (bookingId : Z).

(** What the code does to the outside world, in the order it does it. *)
Inductive Event : Type :=
| PoolConnect
| ClientRelease
| DbQuery (q : Query)
| GetGoogleClient (staffId : Z)   (* getGoogleCalendarClient(staffId), as a
                                    whole: what that function reads and
                                    updates in the database is not recorded *)
| FreeBusyQuery (calendarId : string) (timeMin timeMax : Z)
| EventsInsert (calendarId : string) (startUTC endUTC : Z).

(** A settled promise: fulfilled with a value or rejected with an error,
    of which the message is kept. *)
Inductive Outcome (A : Type) : Type :=
| Return (a : A)
| Throw (message : string).
Arguments Return {A} a.
Arguments Throw {A} message.

(** An awaited computation: its outcome and the calls it made. *)
Definition M (A : Type) : Type := (Outcome A * list Event)%type.

Definition ret {A} (a : A) : M A := (Return a, []).
Definition throw {A} (message : string) : M A := (Throw message, []).

(** The read of an identifier that no scope declares: a
    [ReferenceError], whose message names the identifier. *)
Definition undeclared {A} (name : string) : M A :=
  throw (name ++ " is not defined").

Definition bind {A B} (m : M A) (f : A -> M B) : M B :=
  match m with
  | (Return a, t) => let '(r, t') := f a in (r, (t ++ t')%list)
  | (Throw e, t) => (Throw e, t)
  end.

(** [try { m } catch (error) { handler(error.message) }]. *)
Definition try_catch {A} (m : M A) (handler : string -> M A) : M A :=
  match m with
  | (Return a, t) => (Return a, t)
  | (Throw e, t) => let '(r, t') := handler e in (r, (t ++ t')%list)
  end.

(** [try { m } finally { cleanup }], for a [cleanup] that does not throw. *)
Definition finally {A} (m : M A) (cleanup : list Event) : M A :=
  (fst m, (snd m ++ cleanup)%list).

(** A call on the outside world with a given outcome. *)
Definition call {A} (e : Event) (outcome : Outcome A) : M A :=
  (outcome, [e]).

Definition outcome_of {A} (m : M A) : Outcome A := fst m.
Definition trace_of {A} (m : M A) : list Event := snd m.

End Effects.

Import Effects.

Notation "x <- m ;; k" := (Effects.bind m (fun x => k))
  (at level 61, m at next level, right associativity).

(** ** [src/lib/services/availabilityService.ts]: the data and the world *)

Module Availability.

Import TimeUtils.

Record StaffDetails : Type := mkStaffDetails {
  name : string;
  google_calendar_id : option string;
  is_google_connected : bool;
  is_active : bool
}.

Record WorkingInterval : Type := mkWorkingInterval {
  wi_start : string;   (* HH:MM *)
  wi_end : string      (* HH:MM *)
}.

(** A busy block; an instant is its number of milliseconds since the
    epoch. *)
Record BusyBlock : Type := mkBusyBlock { bb_start : Z; bb_end : Z }.

Record AvailabilityResult : Type := mkResult {
  isAvailable : bool;
  reasons : list string
}.

(** *** The rows of the tables that the queries read *)

Record StaffRow : Type := mkStaffRow {
  staff_id : Z;
  staff_name : string;
  staff_google_calendar_id : option string;
  staff_has_refresh_token : bool;   (* google_refresh_token IS NOT NULL *)
  staff_is_active : bool
}.

Record WorkingHoursRow : Type := mkWorkingHoursRow {
  wh_staff_id : Z;
  wh_day_of_week : Z;
  wh_start_time : option string;    (* to_char(start_time, 'HH24:MI') *)
  wh_end_time : option string
}.

Record BookingRow : Type := mkBookingRow {
  booking_id : Z;
  b_staff_id : Z;
  b_status : string;
  booking_start_time : Z;
  booking_end_time : Z
}.

Record ServiceRow : Type := mkServiceRow {
  service_id : Z;
  service_name : string;
  duration_minutes : Z;
  service_is_active : bool
}.

Record CustomerRow : Type := mkCustomerRow {
  customer_id : Z;
  customer_email : string
}.

(** The object that [getGoogleCalendarClient] resolves to.  [freebusy]
    answers with the [busy] list of the calendar, or with [None] when
    the response has no entry for it. *)
Record GoogleClient : Type := mkGoogleClient {
  freebusy : string -> Z -> Z -> Outcome (option (list (Z * Z)));
  events_insert : string -> Z -> Z -> Outcome string
}.

(** Everything outside the modelled code. *)
Record World : Type := mkWorld {
  (** [process.env.BUSINESS_TIMEZONE] *)
  env_BUSINESS_TIMEZONE : option string;
  (** [moment.tz.zone(name)] is not null *)
  tz_zone_known : string -> bool;
  (** [x.clone().tz(zone).isoWeekday()] *)
  isoWeekday : string -> Z -> Z;
  (** [x.clone().tz(zone).startOf('day')], as an instant *)
  startOfDay : string -> Z -> Z;
  (** A query that the database rejects, with the message of the error *)
  db_error : Query -> option string;
  staff_table : list StaffRow;
  working_hours_table : list WorkingHoursRow;
  bookings_table : list BookingRow;
  services_table : list ServiceRow;
  (** The pairs (staff_id, service_id) of [staff_services] *)
  staff_services_table : list (Z * Z);
  customers_table : list CustomerRow;
  (** [ORDER BY st.name] and [lower(...)], as the database does them *)
  order_by_name : list StaffRow -> list StaffRow;
  sql_lower : string -> string;
  (** The values that the [INSERT ... RETURNING] statements return *)
  inserted_customer_id : Z;
  inserted_booking_id : Z;
  (** [dbPool.connect()] rejects, with the message of the error *)
  pool_connect_error : option string;
  (** [moment.tz(date + ' ' + time, 'YYYY-MM-DD HH:mm', zone)], [None]
      when the result is not valid *)
  parse_local : string -> string -> string -> option Z;
  (** [getGoogleCalendarClient(staffId)] of [src/lib/googleClient.ts] *)
  google_client : Z -> Outcome (option GoogleClient)
}.

(** [a.diff(b, 'minutes')]: the difference of two instants, truncated
    to whole minutes. *)
Definition diff_minutes (a b : Z) : Z := Z.quot (a - b) 60000.

(** [dbClient.query(q)] when the statement [q] selects [rows]. *)
Definition query {A} (w : World) (q : Query) (rows : A) : M A :=
  call (DbQuery q)
       (match db_error w q with
        | Some message => Throw message
        | None => Return rows
        end).

(** [s || fallback] for a string that may be [null]. *)
Definition or_default (s : option string) (fallback : string) : string :=
  match s with
  | Some EmptyString | None => fallback
  | Some v => v
  end.

(** [!s] for a string that may be [null]. *)
Definition falsy (s : option string) : bool :=
  match s with
  | Some EmptyString | None => true
  | Some _ => false
  end.

Definition details_of_row (r : StaffRow) : StaffDetails :=
  {| name := staff_name r;
     google_calendar_id := staff_google_calendar_id r;
     is_google_connected := staff_has_refresh_token r;
     is_active := staff_is_active r |}.

(** [getStaffDetails(staffId, dbClient, lock)] *)
Definition getStaffDetails (w : World) (staffId : Z) (lock : bool)
  : M (option StaffDetails) :=
  try_catch
    (rows <- query w (SelectStaff staffId lock)
               (filter (fun r => staff_id r =? staffId) (staff_table w)) ;;
     match rows with
     | [] => ret None
     | r :: _ => ret (Some (details_of_row r))
     end)
    (fun _ => ret None).

(** [getWorkingInterval(staffId, dayOfWeek, dbClient)] *)
Definition getWorkingInterval (w : World) (staffId dayOfWeek : Z)
  : M (option WorkingInterval) :=
  try_catch
    (rows <- query w (SelectWorkingHours staffId dayOfWeek)
               (filter (fun r => (wh_staff_id r =? staffId)
                                 && (wh_day_of_week r =? dayOfWeek))
                       (working_hours_table w)) ;;
     match rows with
     | [] => ret None
     | r :: _ =>
         if falsy (wh_start_time r) || falsy (wh_end_time r) then ret None
         else ret (Some {| wi_start := or_default (wh_start_time r) "";
                           wi_end := or_default (wh_end_time r) "" |})
     end)
    (fun _ => ret None).

(** [tstzrange(a, b, '[)') && tstzrange(c, d, '[)')]: the two half-open
    ranges have an instant in common. *)
Definition ranges_overlap (a b c d : Z) : bool :=
  (a <? b) && (c <? d) && (a <? d) && (c <? b).

(** The [WHERE] clause of the query of [getDbBusyBlocks]. *)
Definition conflict_row (staffId startUTC endUTC : Z) (exclude : option Z)
           (r : BookingRow) : bool :=
  (b_staff_id r =? staffId)
  && String.eqb (b_status r) "confirmed"
  && ranges_overlap startUTC endUTC (booking_start_time r) (booking_end_time r)
  && match exclude with
     | Some id => negb (booking_id r =? id)
     | None => true
     end.

(** [getDbBusyBlocks(staffId, startTimeUTC, endTimeUTC, dbClient,
    bookingIdToExclude)] *)
Definition getDbBusyBlocks (w : World) (staffId startTimeUTC endTimeUTC : Z)
           (bookingIdToExclude : option Z) : M (list BusyBlock) :=
  try_catch
    (rows <- query w (SelectBookingConflicts staffId startTimeUTC endTimeUTC
                                             bookingIdToExclude)
               (filter (conflict_row staffId startTimeUTC endTimeUTC
                                     bookingIdToExclude)
                       (bookings_table w)) ;;
     ret (map (fun r => {| bb_start := booking_start_time r;
                           bb_end := booking_end_time r |}) rows))
    (fun _ => ret []).

(** [getGcalBusyBlocks(staffId, startTimeUTC, endTimeUTC, staffDetails)];
    [None] is the [null] that stands for a failure to check. *)
Definition getGcalBusyBlocks (w : World) (staffId startTimeUTC endTimeUTC : Z)
           (staffDetails : option StaffDetails)
  : M (option (list BusyBlock)) :=
  match staffDetails with
  | None => ret (Some [])
  | Some details =>
      if negb (is_google_connected details) then ret (Some [])
      else
        googleClient <- call (GetGoogleClient staffId)
                             (google_client w staffId) ;;
        match googleClient with
        | None => ret None
        | Some client =>
            try_catch
              (let calendarId :=
                 or_default (google_calendar_id details) "primary" in
               response <- call (FreeBusyQuery calendarId startTimeUTC
                                               endTimeUTC)
                                (freebusy client calendarId startTimeUTC
                                          endTimeUTC) ;;
               let busyTimes :=
                 match response with Some l => l | None => [] end in
               ret (Some (map (fun busy => {| bb_start := fst busy;
                                              bb_end := snd busy |})
                              busyTimes)))
              (fun _ => ret None)
        end
  end.

(** *** [checkAvailability] *)

Record Options : Type := mkOptions {
  staffId : Z;
  newBookingStartTimeUTC : Z;
  newBookingEndTimeUTC : Z;
  bookingTimezone : string;
  staffDetails : option StaffDetails;    (* null when not provided *)
  bookingIdToExclude : option Z          (* null when not provided *)
}.

(** The four functions of the module that [checkAvailability] awaits. *)
Record Helpers : Type := mkHelpers {
  h_getStaffDetails : Z -> bool -> M (option StaffDetails);
  h_getWorkingInterval : Z -> Z -> M (option WorkingInterval);
  h_getDbBusyBlocks : Z -> Z -> Z -> option Z -> M (list BusyBlock);
  h_getGcalBusyBlocks :
    Z -> Z -> Z -> option StaffDetails -> M (option (list BusyBlock))
}.

Definition reason_timezone : string :=
  "Server configuration error [Timezone].".
Definition reason_staff : string :=
  "Staff member not found or inactive.".
Definition reason_day : string :=
  "Staff member does not work on the selected day.".
Definition reason_hours (wi : WorkingInterval) (timezone : string) : string :=
  "Time slot falls outside staff working hours (" ++ wi_start wi ++ " - "
    ++ wi_end wi ++ " " ++ timezone ++ ").".
Definition reason_booking : string :=
  "Conflicts with another booking in the schedule.".
Definition reason_unverified : string :=
  "Could not verify Google Calendar availability.".
Definition reason_gcal : string :=
  "Conflicts with an event in the staff's Google Calendar.".
Definition reason_internal : string :=
  "An internal error occurred while checking availability.".

Definition unavailable (rs : list string) : AvailabilityResult :=
  {| isAvailable := false; reasons := rs |}.

(** [!businessTimezone || !moment.tz.zone(businessTimezone)] *)
Definition business_timezone_missing (w : World) : bool :=
  match env_BUSINESS_TIMEZONE w with
  | Some (String _ _ as zone) => negb (tz_zone_known w zone)
  | _ => true
  end.

(** [blocks.some(block => block.start.isBefore(newEndTime) &&
    block.end.isAfter(newStartTime))] *)
Definition some_overlap (blocks : list BusyBlock) (newStartTime newEndTime : Z)
  : bool :=
  existsb (fun block => (bb_start block <? newEndTime)
                        && (bb_end block >? newStartTime)) blocks.

(** [reasons.push(r)] and [reasons.length > 0] *)
Definition push (rs : list string) (r : string) : list string :=
  (rs ++ [r])%list.
Definition nonempty (rs : list string) : bool :=
  Nat.ltb 0 (List.length rs).

Section Pipeline.

Variable w : World.
Variable helpers : Helpers.

(** The block guarded by [try] in [checkAvailability].  Once a working
    interval is found, the block reads [newEndTimeLocal], a name that
    the module neither declares nor imports: the read throws, and what
    follows it in the block is never run. *)
Definition checkAvailability_try (o : Options) : M AvailabilityResult :=
  let newStartTime := newBookingStartTimeUTC o in
  let newEndTime := newBookingEndTimeUTC o in
  let reasons : list string := [] in
  details <- match staffDetails o with
             | Some provided => ret (Some provided)
             | None => h_getStaffDetails helpers (staffId o) false
             end ;;
  match details with
  | None => ret (unavailable [reason_staff])
  | Some sd =>
      if negb (is_active sd) then ret (unavailable [reason_staff])
      else
        let localDayOfWeek := isoWeekday w (bookingTimezone o) newStartTime in
        let localDayStart := startOfDay w (bookingTimezone o) newStartTime in
        workingInterval <-
          h_getWorkingInterval helpers (staffId o) localDayOfWeek ;;
        match workingInterval with
        | None => ret (unavailable [reason_day])
        | Some wi =>
            let workStartMins := timeToMinutes (Some (wi_start wi)) in
            let workEndMins := timeToMinutes (Some (wi_end wi)) in
            let bookingStartMins := diff_minutes newStartTime localDayStart in
            (* [newEndTimeLocal] is declared nowhere in the module *)
            newEndTimeLocal <- undeclared "newEndTimeLocal" ;;
            let bookingEndMins := diff_minutes newEndTimeLocal localDayStart in
            let reasons :=
              if (bookingStartMins <? workStartMins)
                 || (bookingEndMins >? workEndMins)
              then push reasons (reason_hours wi (bookingTimezone o))
              else reasons in
            if nonempty reasons then ret (unavailable reasons)
            else
              dbBusyBlocks <-
                h_getDbBusyBlocks helpers (staffId o) newStartTime newEndTime
                                  (bookingIdToExclude o) ;;
              let dbConflict :=
                some_overlap dbBusyBlocks newStartTime newEndTime in
              let reasons :=
                if dbConflict then push reasons reason_booking
                else reasons in
              if nonempty reasons then ret (unavailable reasons)
              else
                gcalBusyBlocks <-
                  h_getGcalBusyBlocks helpers (staffId o) newStartTime
                                      newEndTime (Some sd) ;;
                let reasons :=
                  match gcalBusyBlocks with
                  | None => push reasons reason_unverified
                  | Some blocks =>
                      if some_overlap blocks newStartTime newEndTime
                      then push reasons reason_gcal
                      else reasons
                  end in
                ret {| isAvailable := Nat.eqb (List.length reasons) 0;
                       reasons := reasons |}
        end
  end.

(** [checkAvailability(options)], whatever the four helpers do. *)
Definition checkAvailability_with (o : Options) : M AvailabilityResult :=
  if business_timezone_missing w then ret (unavailable [reason_timezone])
  else
    try_catch (checkAvailability_try o)
              (fun _ => ret (unavailable [reason_internal])).

End Pipeline.

(** The helpers as the module defines them. *)
Definition module_helpers (w : World) : Helpers :=
  {| h_getStaffDetails := getStaffDetails w;
     h_getWorkingInterval := getWorkingInterval w;
     h_getDbBusyBlocks := getDbBusyBlocks w;
     h_getGcalBusyBlocks := getGcalBusyBlocks w |}.

(** [checkAvailability(options)] *)
Definition checkAvailability (w : World) (o : Options) : M AvailabilityResult :=
  checkAvailability_with w (module_helpers w) o.

End Availability.

(** ** [src/app/api/slots/route.ts] *)

Module SlotsRoute.

Import TimeUtils Intervals Availability.

(** A row of the query for the eligible staff. *)
Record StaffRef : Type := mkStaffRef { ref_staff_id : Z; ref_name : string }.

(** An element of [allSlots]. *)
Record Slot : Type := mkSlot {
  time : string;
  slot_staffId : Z;
  slot_staffName : string
}.

(** The requested day in the business time zone. *)
Record Day : Type := mkDay {
  dayOfWeek : Z;          (* targetDate.isoWeekday() *)
  dayStart : Z;           (* dayStartLocal, the same instant as dayStartUTC *)
  dayEnd : Z              (* dayEndLocal, the same instant as dayEndUTC *)
}.

(** The function mapped over the busy blocks: the block in minutes of
    the day, cut at 0 and 1440, or [null]. *)
Definition to_day_minutes (d : Day) (block : BusyBlock) : option Range :=
  let blockStartMinutes := diff_minutes (bb_start block) (dayStart d) in
  let blockEndMinutes := diff_minutes (bb_end block) (dayStart d) in
  let overlapStart := Z.max blockStartMinutes 0 in
  let overlapEnd := Z.min blockEndMinutes 1440 in
  if overlapStart <? overlapEnd
  then Some (mkRange overlapStart overlapEnd) else None.

(** [blocks.map(to_day_minutes).filter(Boolean)] *)
Fixpoint busy_minutes (d : Day) (blocks : list BusyBlock) : list Range :=
  match blocks with
  | [] => []
  | b :: rest =>
      match to_day_minutes d b with
      | Some r => r :: busy_minutes d rest
      | None => busy_minutes d rest
      end
  end.

(** The slots of a staff member once the busy minutes are known. *)
Definition slots_for (staff : StaffRef) (serviceDuration : Z)
           (workingIntervalsMinutes allBusyMinutes : list Range) : list Slot :=
  let freeIntervals :=
    calculateFreeIntervals workingIntervalsMinutes allBusyMinutes in
  let availableMinutes := generateSlots freeIntervals serviceDuration 15 in
  map (fun startMinute =>
         {| time := formatTime (Some startMinute);
            slot_staffId := ref_staff_id staff;
            slot_staffName := ref_name staff |})
      availableMinutes.

(** The [async] function mapped over [eligibleStaff]. *)
Definition staff_slots (w : World) (d : Day) (serviceDuration : Z)
           (staff : StaffRef) : M (list Slot) :=
  try_catch
    (staffDetails <- getStaffDetails w (ref_staff_id staff) false ;;
     match staffDetails with
     | None => ret []
     | Some sd =>
         if negb (is_active sd) then ret []
         else
           workingInterval <-
             getWorkingInterval w (ref_staff_id staff) (dayOfWeek d) ;;
           match workingInterval with
           | None => ret []
           | Some wi =>
               let workingStartMins := timeToMinutes (Some (wi_start wi)) in
               let workingEndMins := timeToMinutes (Some (wi_end wi)) in
               if (workingStartMins <? 0)
                  || (workingEndMins <=? workingStartMins)
               then ret []
               else
                 let workingIntervalsMinutes :=
                   [mkRange workingStartMins workingEndMins] in
                 dbBusyBlocksUTC <-
                   getDbBusyBlocks w (ref_staff_id staff) (dayStart d)
                                   (dayEnd d) None ;;
                 let dbBusyMinutes := busy_minutes d dbBusyBlocksUTC in
                 gcalBusyBlocksUTC <-
                   getGcalBusyBlocks w (ref_staff_id staff) (dayStart d)
                                     (dayEnd d) (Some sd) ;;
                 let gcalBusyMinutes :=
                   match gcalBusyBlocksUTC with
                   | None => []       (* "Let's ignore for now" *)
                   | Some blocks => busy_minutes d blocks
                   end in
                 let allBusyMinutes :=
                   (dbBusyMinutes ++ gcalBusyMinutes)%list in
                 ret (slots_for staff serviceDuration workingIntervalsMinutes
                                allBusyMinutes)
           end
     end)
    (fun _ => ret []).

(** [allSlots] after [Promise.allSettled]: the values of the fulfilled
    promises, in the order of [eligibleStaff].  The promises run
    interleaved; their values do not depend on the interleaving, and
    the calls are recorded staff by staff. *)
Fixpoint all_slots (w : World) (d : Day) (serviceDuration : Z)
         (eligibleStaff : list StaffRef) : M (list Slot) :=
  match eligibleStaff with
  | [] => ret []
  | staff :: rest =>
      match staff_slots w d serviceDuration staff with
      | (Return value, t) =>
          slots <- (Return tt, t) ;;
          others <- all_slots w d serviceDuration rest ;;
          ret (value ++ others)%list
      | (Throw _, t) =>
          slots <- (Return tt, t) ;;
          all_slots w d serviceDuration rest
      end
  end.

(** [slotsByTime]: an object used as a map from the time to the staff
    offering it; its keys are kept in the order of their insertion,
    which is the order of [Object.entries]. *)
Definition SlotsByTime : Type := list (string * list (Z * string)).

(** One turn of the loop that fills [slotsByTime]. *)
Fixpoint add_slot (slotsByTime : SlotsByTime) (slot : Slot) : SlotsByTime :=
  match slotsByTime with
  | [] => [(time slot, [(slot_staffId slot, slot_staffName slot)])]
  | (t, staffList) :: rest =>
      if String.eqb t (time slot)
      then (t, if existsb (fun s => fst s =? slot_staffId slot) staffList
               then staffList
               else (staffList ++ [(slot_staffId slot, slot_staffName slot)])%list)
           :: rest
      else (t, staffList) :: add_slot rest slot
  end.

Definition group_by_time (allSlots : list Slot) : SlotsByTime :=
  fold_left add_slot allSlots [].

(** The function mapped over [Object.entries(slotsByTime)]. *)
Definition pick_staff (parsedStaffId : option Z)
           (entry : string * list (Z * string)) : option Slot :=
  let '(t, staffList) := entry in
  match staffList with
  | [] => None
  | first :: _ =>
      match parsedStaffId with
      | Some id =>
          match find (fun s => fst s =? id) staffList with
          | Some specificStaff =>
              Some {| time := t; slot_staffId := fst specificStaff;
                      slot_staffName := snd specificStaff |}
          | None => None
          end
      | None =>
          Some {| time := t; slot_staffId := fst first;
                  slot_staffName := snd first |}
      end
  end.

Fixpoint filter_some {A} (l : list (option A)) : list A :=
  match l with
  | [] => []
  | Some a :: rest => a :: filter_some rest
  | None :: rest => filter_some rest
  end.

(** [.sort((a, b) => a.time.localeCompare(b.time))] on times that
    [formatTime] produced: five characters, digits around a colon, which
    the collation orders as the characters are. *)
Fixpoint insert_by_time (x : Slot) (l : list Slot) : list Slot :=
  match l with
  | [] => [x]
  | y :: l' =>
      if String.leb (time x) (time y) then x :: y :: l'
      else y :: insert_by_time x l'
  end.

Fixpoint sort_by_time (l : list Slot) : list Slot :=
  match l with
  | [] => []
  | x :: l' => insert_by_time x (sort_by_time l')
  end.

Definition final_slots (parsedStaffId : option Z) (allSlots : list Slot)
  : list Slot :=
  sort_by_time
    (filter_some (map (pick_staff parsedStaffId) (group_by_time allSlots))).

Inductive Response : Type :=
| Json (finalSlots : list Slot)
| Error (status : Z) (message : string).

(** The query for the eligible staff. *)
Definition eligible_staff (w : World) (parsedServiceId : Z)
           (parsedStaffId : option Z) : list StaffRef :=
  map (fun r => {| ref_staff_id := staff_id r; ref_name := staff_name r |})
      (order_by_name w
         (filter (fun r =>
                    existsb (fun ss => (fst ss =? staff_id r)
                                       && (snd ss =? parsedServiceId))
                            (staff_services_table w)
                    && staff_is_active r
                    && match parsedStaffId with
                       | Some id => staff_id r =? id
                       | None => true
                       end)
                 (staff_table w))).

(** [GET], from the point where the query parameters are parsed:
    [parsedServiceId], the day computed from [date], [parsedStaffId]. *)
Definition GET (w : World) (parsedServiceId : Z) (d : Day)
           (parsedStaffId : option Z) : M Response :=
  if business_timezone_missing w then ret (Error 500 reason_timezone)
  else
    try_catch
      (serviceResult <-
         query w (SelectService parsedServiceId false)
               (filter (fun r => (service_id r =? parsedServiceId)
                                 && service_is_active r)
                       (services_table w)) ;;
       match serviceResult with
       | [] =>
           ret (Error 404 ("Active service "
                             ++ String_of_int parsedServiceId
                             ++ " not found."))
       | service :: _ =>
           let serviceDuration := duration_minutes service in
           eligibleStaff <-
             query w (SelectEligibleStaff parsedServiceId parsedStaffId)
                   (eligible_staff w parsedServiceId parsedStaffId) ;;
           match eligibleStaff with
           | [] => ret (Json [])
           | _ =>
               allSlots <- all_slots w d serviceDuration eligibleStaff ;;
               ret (Json (final_slots parsedStaffId allSlots))
           end
       end)
      (fun _ => ret (Error 500 "Internal server error while fetching slots.")).

End SlotsRoute.

(** ** [src/app/api/bookings/route.ts] *)

Module BookingsRoute.

Import TimeUtils Availability.

(** The body of the request; [clientPhone] and [notes] may be absent. *)
Record Body : Type := mkBody {
  serviceId : string;
  body_staffId : string;
  date : string;
  body_time : string;
  timezone : string;
  clientName : string;
  clientEmail : string;
  clientPhone : option string;
  notes : option string
}.

Inductive Response : Type :=
| Created (bookingId customerId : Z) (googleEventId : option string)  (* 201 *)
| Unavailable (details : list string)                               (* 409 *)
| Failed (status : Z) (error : string).

(** [s.includes(sub)] *)
Fixpoint includes (s sub : string) : bool :=
  String.prefix sub s
  || match s with
     | String _ rest => includes rest sub
     | EmptyString => false
     end.

(** The message and the status that the [catch] block of [POST] derives
    from the message of the error. *)
Definition error_response (message : string) : Response :=
  let client_error :=
    includes message "not found or is inactive"
    || includes message "Invalid date or time" in
  let conflict := includes message "Sorry, the selected time slot" in
  Failed (if client_error then 400 else if conflict then 409 else 500)
         (if client_error then message
          else if conflict then message
          else "Internal server error while processing booking.").

(** [getServiceDetails(serviceId, client)] *)
Definition getServiceDetails (w : World) (id : Z) : M ServiceRow :=
  serviceResult <-
    query w (SelectService id true)
          (filter (fun r => (service_id r =? id) && service_is_active r)
                  (services_table w)) ;;
  match serviceResult with
  | [] => throw ("Active service with ID " ++ String_of_int id
                   ++ " not found or is inactive.")
  | r :: _ => ret r
  end.

(** [findOrCreateCustomer(client, name, email, phone)] *)
Definition findOrCreateCustomer (w : World) (name email : string)
           (phone : option string) : M Z :=
  customerResult <-
    query w (SelectCustomerByEmail email)
          (filter (fun r => String.eqb (sql_lower w (customer_email r))
                                       (sql_lower w email))
                  (customers_table w)) ;;
  match customerResult with
  | r :: _ => ret (customer_id r)
  | [] => query w (InsertCustomer name email phone) (inserted_customer_id w)
  end.

(** Step 7 of [POST]: the creation of the Google Calendar event, once
    the booking row is inserted.  The assignment to [googleEventId]
    precedes the [UPDATE], so an error of the [UPDATE] leaves it set. *)
Definition add_to_google_calendar (w : World) (parsedStaffId : Z)
           (sd : StaffDetails) (startUTC endUTC newBookingId : Z)
  : M (option string) :=
  if is_google_connected sd && negb (falsy (google_calendar_id sd)) then
    googleClientForEvent <-
      call (GetGoogleClient parsedStaffId) (google_client w parsedStaffId) ;;
    match googleClientForEvent with
    | Some client =>
        let calendarId := or_default (google_calendar_id sd) "" in
        inserted <-
          try_catch
            (id <- call (EventsInsert calendarId startUTC endUTC)
                        (events_insert client calendarId startUTC endUTC) ;;
             ret (Some id))
            (fun _ => ret None) ;;
        match inserted with
        | Some id =>
            _ <- try_catch
                   (query w (UpdateBookingEventId id newBookingId) tt)
                   (fun _ => ret tt) ;;
            ret (Some id)
        | None => ret None
        end
    | None => ret None
    end
  else ret None.

(** The part of the [try] block of [POST] that follows
    [client = await dbPool.connect()]. *)
Definition transaction (w : World) (b : Body)
           (parsedServiceId parsedStaffId : Z) (businessTimezone : string)
  : M Response :=
  _ <- query w Begin tt ;;
  serviceDetails <- getServiceDetails w parsedServiceId ;;
  staffDetails <- getStaffDetails w parsedStaffId true ;;
  match staffDetails with
  | Some sd =>
      if negb (is_active sd)
      then throw ("Active staff member with ID " ++ String_of_int parsedStaffId
                    ++ " not found or is inactive.")
      else
        let serviceDuration := duration_minutes serviceDetails in
        customerId <-
          findOrCreateCustomer w (clientName b) (clientEmail b)
                               (clientPhone b) ;;
        match parse_local w (date b) (body_time b) (timezone b) with
        | None => throw "Invalid date or time format provided for booking."
        | Some bookingStartTimeUTC =>
            let bookingEndTimeUTC :=
              bookingStartTimeUTC + serviceDuration * 60000 in
            availabilityResult <-
              checkAvailability w
                {| staffId := parsedStaffId;
                   newBookingStartTimeUTC := bookingStartTimeUTC;
                   newBookingEndTimeUTC := bookingEndTimeUTC;
                   bookingTimezone := businessTimezone;
                   staffDetails := Some sd;
                   bookingIdToExclude := None |} ;;
            if negb (isAvailable availabilityResult) then
              _ <- query w Rollback tt ;;
              ret (Unavailable (reasons availabilityResult))
            else
              newBookingId <-
                query w (InsertBooking parsedStaffId parsedServiceId customerId
                                       bookingStartTimeUTC bookingEndTimeUTC
                                       "confirmed")
                      (inserted_booking_id w) ;;
              googleEventId <-
                add_to_google_calendar w parsedStaffId sd bookingStartTimeUTC
                                       bookingEndTimeUTC newBookingId ;;
              _ <- query w Commit tt ;;
              ret (Created newBookingId customerId googleEventId)
        end
  | None =>
      throw ("Active staff member with ID " ++ String_of_int parsedStaffId
               ++ " not found or is inactive.")
  end.

(** [POST(request)], from the parsed body of the request. *)
Definition POST (w : World) (b : Body) : M Response :=
  if falsy (Some (serviceId b)) || falsy (Some (body_staffId b))
     || falsy (Some (date b)) || falsy (Some (body_time b))
     || falsy (Some (timezone b)) || falsy (Some (clientName b))
     || falsy (Some (clientEmail b))
  then ret (Failed 400 "Missing required booking fields.")
  else if negb (tz_zone_known w (timezone b))
  then ret (Failed 400 ("Invalid timezone provided: " ++ timezone b))
  else
    match parseInt (serviceId b), parseInt (body_staffId b) with
    | Some parsedServiceId, Some parsedStaffId =>
        if business_timezone_missing w then ret (Failed 500 reason_timezone)
        else
          match pool_connect_error w with
          | Some message =>
              (* the error is caught with [client] undefined *)
              _ <- (Return tt, [PoolConnect]) ;;
              ret (error_response message)
          | None =>
              _ <- call PoolConnect (Return tt) ;;
              finally
                (try_catch
                   (transaction w b parsedServiceId parsedStaffId
                                (or_default (env_BUSINESS_TIMEZONE w) ""))
                   (fun message =>
                      _ <- try_catch (query w Rollback tt)
                                     (fun _ => ret tt) ;;
                      ret (error_response message)))
                [ClientRelease]
          end
    | _, _ => ret (Failed 400 "Invalid Service ID or Staff ID.")
    end.

(** *** Reading a record of calls *)

(** A call that goes to the Google Calendar service over the network. *)
Definition is_external_call (e : Event) : bool :=
  match e with
  | GetGoogleClient _ | FreeBusyQuery _ _ _ | EventsInsert _ _ _ => true
  | _ => false
  end.



End BookingsRoute.

(** ** The words of the specification *)

Module Spec.

Import TimeUtils Intervals Availability.


(** "HH" and "MM": a number written with two digits. *)
Definition two_digits (n : Z) : string :=
  padStart 2 "0"%char (String_of_int n).




(** The minute [x] lies in the half-open range [r]. *)
Definition inside (x : Z) (r : Range) : Prop := start r <= x < end_ r.

Definition insideb (x : Z) (r : Range) : bool :=
  (start r <=? x) && (x <? end_ r).

(** The number of ranges of [l] in which [x] lies. *)
Definition cover (x : Z) (l : list Range) : nat :=
  List.length (filter (insideb x) l).

(** The sentence of the specification on the subtraction of intervals,
    for all lists of working ranges and of busy ranges. *)
Definition subtraction_exact : Prop :=
  forall (W B : list Range) (x : Z),
    (forall r b, In r (calculateFreeIntervals W B) -> In b B ->
                 inside x r -> ~ inside x b)
    /\ ((exists r, In r W /\ inside x r) ->
        (forall b, In b B -> ~ inside x b) ->
        cover x (calculateFreeIntervals W B) = 1%nat).

(** The ranges of [l] are pairwise disjoint: no minute lies in two. *)
Definition disjoint_ranges (l : list Range) : Prop :=
  forall x, (cover x l <= 1)%nat.

(** The staff details that a check uses: those passed in the options,
    or else those that the helper looks up. *)
Definition details_lookup (helpers : Helpers) (o : Options)
  : M (option StaffDetails) :=
  match staffDetails o with
  | Some provided => ret (Some provided)
  | None => h_getStaffDetails helpers (staffId o) false
  end.

(** The lookup of the working interval of the local weekday of the
    request. *)
Definition hours_lookup (w : World) (helpers : Helpers) (o : Options)
  : M (option WorkingInterval) :=
  h_getWorkingInterval helpers (staffId o)
    (isoWeekday w (bookingTimezone o) (newBookingStartTimeUTC o)).

(** The sentence of the specification on unexpected failures, for the
    errors of the database: when a query that the check sends is
    rejected, the check does not return a result but fails. *)
Definition persistence_errors_propagate : Prop :=
  forall (w : World) (o : Options) (q : Query) (message : string),
    db_error w q = Some message ->
    In (DbQuery q) (trace_of (checkAvailability w o)) ->
    forall r, outcome_of (checkAvailability w o) <> Return r.

(** The sentence of the specification on the listing of slots: a staff
    member whose external calendar cannot be verified has no slot. *)
Definition unverified_staff_has_no_slot : Prop :=
  forall (w : World) (d : SlotsRoute.Day) (serviceDuration : Z)
         (staff : SlotsRoute.StaffRef) (sd : StaffDetails),
    outcome_of (getStaffDetails w (SlotsRoute.ref_staff_id staff) false)
    = Return (Some sd) ->
    outcome_of (getGcalBusyBlocks w (SlotsRoute.ref_staff_id staff)
                  (SlotsRoute.dayStart d) (SlotsRoute.dayEnd d) (Some sd))
    = Return None ->
    outcome_of (SlotsRoute.staff_slots w d serviceDuration staff) = Return [].

End Spec.

(** ** A salon, for the examples *)

Module Scenario.

Import Availability.

Definition minute : Z := 60000.
Definition day : Z := 1440 * minute.

(** A Google client that answers: nothing busy, and events are created. *)
Definition answering_client : GoogleClient :=
  {| freebusy := fun _ _ _ => Return (Some []);
     events_insert := fun _ _ _ => Return "event-1" |}.

Definition alice : StaffDetails :=
  {| name := "Alice"; google_calendar_id := Some "alice@calendar";
     is_google_connected := true; is_active := true |}.

(** One staff member, Alice (1), linked to Google Calendar, who works on
    Thursdays from 09:00 to 17:00 and has one confirmed booking (7) from
    10:00 to 11:00 on Thursday 1 January 1970; one service (1) of 30
    minutes.  The time zone is UTC. *)
Definition salon (errors : Query -> option string)
           (google : Z -> Outcome (option GoogleClient)) : World :=
  {| env_BUSINESS_TIMEZONE := Some "UTC";
     tz_zone_known := fun _ => true;
     isoWeekday := fun _ x => (x / day + 3) mod 7 + 1;
     startOfDay := fun _ x => day * (x / day);
     db_error := errors;
     staff_table := [mkStaffRow 1 "Alice" (Some "alice@calendar") true true];
     working_hours_table :=
       [mkWorkingHoursRow 1 4 (Some "09:00") (Some "17:00")];
     bookings_table :=
       [mkBookingRow 7 1 "confirmed" (600 * minute) (660 * minute)];
     services_table := [mkServiceRow 1 "Haircut" 30 true];
     staff_services_table := [(1, 1)];
     customers_table := [];
     order_by_name := fun rows => rows;
     sql_lower := fun s => s;
     inserted_customer_id := 100;
     inserted_booking_id := 200;
     pool_connect_error := None;
     parse_local := fun _ _ _ => Some (720 * minute);
     google_client := google |}.

Definition no_error : Query -> option string := fun _ => None.

(** The query of the stored bookings is rejected. *)
Definition bookings_unreachable (q : Query) : option string :=
  match q with
  | SelectBookingConflicts _ _ _ _ => Some "connection terminated"
  | _ => None
  end.

(** The query of the working hours is rejected. *)
Definition hours_unreachable (q : Query) : option string :=
  match q with
  | SelectWorkingHours _ _ => Some "connection terminated"
  | _ => None
  end.

Definition calm : World :=
  salon no_error (fun _ => Return (Some answering_client)).
Definition google_down : World :=
  salon no_error (fun _ => Return None).
Definition google_rejects : World :=
  salon no_error (fun _ => Throw "token store unreachable").
Definition database_flaky : World :=
  salon bookings_unreachable (fun _ => Return (Some answering_client)).
Definition hours_flaky : World :=
  salon hours_unreachable (fun _ => Return (Some answering_client)).

(** A request for Alice from [from] to [to], minutes of the day. *)
Definition request (from to : Z) (exclude : option Z) : Options :=
  {| staffId := 1;
     newBookingStartTimeUTC := from * minute;
     newBookingEndTimeUTC := to * minute;
     bookingTimezone := "UTC";
     staffDetails := None;
     bookingIdToExclude := exclude |}.

Definition thursday : SlotsRoute.Day :=
  {| SlotsRoute.dayOfWeek := 4; SlotsRoute.dayStart := 0;
     SlotsRoute.dayEnd := day - 1 |}.

Definition alice_ref : SlotsRoute.StaffRef :=
  {| SlotsRoute.ref_staff_id := 1; SlotsRoute.ref_name := "Alice" |}.

Definition noon_booking : BookingsRoute.Body :=
  {| BookingsRoute.serviceId := "1";
     BookingsRoute.body_staffId := "1";
     BookingsRoute.date := "1970-01-01";
     BookingsRoute.body_time := "12:00";
     BookingsRoute.timezone := "UTC";
     BookingsRoute.clientName := "Bob";
     BookingsRoute.clientEmail := "bob@example.org";
     BookingsRoute.clientPhone := None;
     BookingsRoute.notes := None |}.

End Scenario.

From Stdlib Require Import Permutation Sorted.

(** ** [src/app/api/admin/staff/[id]/working-hours/route.ts]: the validation *)

Module WorkingHoursRoute.

Import TimeUtils Availability.

Definition is_digit (c : ascii) : bool :=
  match digit_value c with Some _ => true | None => false end.

(** [/^\d{2}:\d{2}$/.test(s)]: two digits, a colon, two digits, and
    nothing else. *)
Definition hh_mm (s : string) : bool :=
  match s with
  | String h1 (String h0 (String colon (String m1 (String m0 EmptyString)))) =>
      is_digit h1 && is_digit h0 && Ascii.eqb colon ":"%char
      && is_digit m1 && is_digit m0
  | _ => false
  end.

(** One value of the payload of [PUT], at its declared shape: an object
    whose two fields are strings or absent.  A day without hours ([null]
    or no key) is [None] in [workingHours]. *)
Record Hours : Type := {
  start_time : option string;
  end_time : option string
}.

(** The two answers with status 400 of the validation. *)
Inductive Rejection : Type :=
| InvalidFormat (day : Z)       (* "Invalid format for day N. Use HH:MM." *)
| EndNotAfterStart (day : Z).   (* "End time must be after start time ..." *)

(** The body of the validation loop for one day. *)
Definition validate_day (day : Z) (hours : option Hours) : option Rejection :=
  match hours with
  | None => None
  | Some h =>
      if falsy (start_time h) || falsy (end_time h)
         || negb (match start_time h with Some s => hh_mm s | None => false end)
         || negb (match end_time h with Some e => hh_mm e | None => false end)
      then Some (InvalidFormat day)
      else if timeToMinutes (end_time h) <=? timeToMinutes (start_time h)
      then Some (EndNotAfterStart day)
      else None
  end.

(** [for (let day = first; ...; day++)], [n] rounds, leaving at the first
    rejection. *)
Fixpoint validate_from (workingHours : Z -> option Hours) (first : Z)
         (n : nat) : option Rejection :=
  match n with
  | O => None
  | S n' =>
      match validate_day first (workingHours first) with
      | Some rejection => Some rejection
      | None => validate_from workingHours (first + 1) n'
      end
  end.

(** [for (let day = 1; day <= 7; day++)] *)
Definition validate (workingHours : Z -> option Hours) : option Rejection :=
  validate_from workingHours 1 7.

(** The rows of the second loop: one insert per day whose start and end
    are both truthy. *)
Fixpoint inserts_from (workingHours : Z -> option Hours) (first : Z)
         (n : nat) : list (Z * string * string) :=
  match n with
  | O => []
  | S n' =>
      (match workingHours first with
       | Some h =>
           match start_time h, end_time h with
           | Some (String c s), Some (String c' e) =>
               [(first, String c s, String c' e)]
           | _, _ => []
           end
       | None => []
       end ++ inserts_from workingHours (first + 1) n')%list
  end.

Definition inserts (workingHours : Z -> option Hours)
  : list (Z * string * string) :=
  inserts_from workingHours 1 7.

End WorkingHoursRoute.

(** ** Words for the records of calls *)

Module TraceWords.

(** An event other than taking a client from the pool and giving it back. *)
Definition inner_event (e : Event) : Prop :=
  e <> PoolConnect /\ e <> ClientRelease.

(** The record [t] ends with the query [q] followed by the release of
    the client, and has no other release and no connection. *)
Definition closed_by (q : Query) (t : list Event) : Prop :=
  exists mid,
    t = (mid ++ [DbQuery q; ClientRelease])%list /\ Forall inner_event mid.

End TraceWords.

(* ===================================================================== *)
(** * Part II. The properties                                             *)
(* ===================================================================== *)

Import TimeUtils Intervals Availability Spec.

(** ** Examples: tests of the repository and scenarios of the
    specification, as the code answers them *)

Example timeToMinutes_0130 : TimeUtils.timeToMinutes (Some "01:30") = 90.
Proof. reflexivity. Qed.

Example formatTime_1439 : TimeUtils.formatTime (Some 1439) = "23:59".
Proof. reflexivity. Qed.

Example scenario_C_free :
  Intervals.calculateFreeIntervals
    [Intervals.mkRange 540 1020] [Intervals.mkRange 600 660]
  = [Intervals.mkRange 540 600; Intervals.mkRange 660 1020].
Proof. reflexivity. Qed.

Example generateSlots_test :
  Intervals.generateSlots [Intervals.mkRange 540 720] 60 30
  = [540; 570; 600; 630; 660].
Proof. vm_compute. reflexivity. Qed.

(** The requests of the scenarios A (a free slot) and B (a slot that
    the stored booking overlaps), as the code answers them. *)
Example scenario_A :
  Availability.checkAvailability Scenario.calm (Scenario.request 720 750 None)
  = (Effects.Return (Availability.unavailable [Availability.reason_internal]),
     [Effects.DbQuery (Effects.SelectStaff 1 false);
      Effects.DbQuery (Effects.SelectWorkingHours 1 4)]).
Proof. vm_compute. reflexivity. Qed.

Example scenario_B :
  Availability.checkAvailability Scenario.calm (Scenario.request 615 645 None)
  = (Effects.Return (Availability.unavailable [Availability.reason_internal]),
     [Effects.DbQuery (Effects.SelectStaff 1 false);
      Effects.DbQuery (Effects.SelectWorkingHours 1 4)]).
Proof. vm_compute. reflexivity. Qed.

Example scenario_C_slots :
  Intervals.generateSlots
    [Intervals.mkRange 540 600; Intervals.mkRange 660 1020] 30 15
  = ([540; 555; 570]
       ++ map (fun k => 660 + 15 * Z.of_nat k) (seq 0 23))%list.
Proof. vm_compute. reflexivity. Qed.

Example scenario_D :
  Availability.checkAvailability Scenario.calm
    {| Availability.staffId := 1;
       Availability.newBookingStartTimeUTC := 720 * Scenario.minute;
       Availability.newBookingEndTimeUTC := 750 * Scenario.minute;
       Availability.bookingTimezone := "UTC";
       Availability.staffDetails :=
         Some (Availability.mkStaffDetails "Alice" None false false);
       Availability.bookingIdToExclude := None |}
  = (Effects.Return (Availability.unavailable [Availability.reason_staff]), []).
Proof. vm_compute. reflexivity. Qed.

Example noon_booking_refused :
  BookingsRoute.POST Scenario.calm Scenario.noon_booking
  = (Effects.Return
       (BookingsRoute.Unavailable [Availability.reason_internal]),
     [Effects.PoolConnect; Effects.DbQuery Effects.Begin;
      Effects.DbQuery (Effects.SelectService 1 true);
      Effects.DbQuery (Effects.SelectStaff 1 true);
      Effects.DbQuery (Effects.SelectCustomerByEmail "bob@example.org");
      Effects.DbQuery (Effects.InsertCustomer "Bob" "bob@example.org" None);
      Effects.DbQuery (Effects.SelectWorkingHours 1 4);
      Effects.DbQuery Effects.Rollback; Effects.ClientRelease]).
Proof. vm_compute. reflexivity. Qed.

(** ** Time of day *)

Section TimeOfDay.

(** A property tested on the first [n] natural numbers holds below [n]. *)
Lemma checked_below (P : Z -> bool) (n : nat) :
  forallb (fun k => P (Z.of_nat k)) (seq 0 n) = true ->
  forall z, 0 <= z < Z.of_nat n -> P z = true.
Proof.
  intros Hall z Hz.
  rewrite forallb_forall in Hall.
  specialize (Hall (Z.to_nat z)).
  rewrite Z2Nat.id in Hall by lia.
  apply Hall, in_seq. lia.
Qed.





(** C6. Round trip: for every integer [m] of [0, 1439],
    [timeToMinutes(formatTime(m))] is [m]. *)
Theorem timeToMinutes_formatTime (m : Z) :
  0 <= m <= 1439 ->
  timeToMinutes (Some (formatTime (Some m))) = m.
Proof.
  intros Hm.
  apply Z.eqb_eq.
  apply (checked_below
           (fun k => timeToMinutes (Some (formatTime (Some k))) =? k) 1440);
    [vm_compute; reflexivity | lia].
Qed.

Lemma timeToMinutes_formatTime_witness :
  0 <= 615 <= 1439 /\ timeToMinutes (Some (formatTime (Some 615))) = 615.
Proof.
  split; [lia | apply (timeToMinutes_formatTime 615); lia].
Defined.



End TimeOfDay.


(** ** Free intervals and slots *)

Section FreeIntervals.

Ltac split_tests :=
  repeat match goal with
    | |- context [?a <=? ?b] => destruct (Z.leb_spec a b)
    | |- context [?a <? ?b] => destruct (Z.ltb_spec a b)
    | |- context [?a >? ?b] => rewrite (Z.gtb_ltb a b)
    end.

Lemma inside_insideb (x : Z) (r : Range) : inside x r <-> insideb x r = true.
Proof.
  unfold inside, insideb. rewrite andb_true_iff, Z.leb_le, Z.ltb_lt. tauto.
Qed.

Lemma cover_app (x : Z) (l1 l2 : list Range) :
  cover x (l1 ++ l2) = (cover x l1 + cover x l2)%nat.
Proof. unfold cover. rewrite filter_app, length_app. reflexivity. Qed.

Lemma cover_cons (x : Z) (r : Range) (l : list Range) :
  cover x (r :: l) = ((if insideb x r then 1 else 0) + cover x l)%nat.
Proof. unfold cover. simpl. destruct (insideb x r); reflexivity. Qed.

Lemma cover_positive (x : Z) (r : Range) (l : list Range) :
  In r l -> inside x r -> (1 <= cover x l)%nat.
Proof.
  intros Hin Hx. apply inside_insideb in Hx.
  induction l as [|r' l IH]; [contradiction|].
  rewrite cover_cons. destruct Hin as [-> | Hin].
  - rewrite Hx. lia.
  - specialize (IH Hin). lia.
Qed.

Lemma cover_zero (x : Z) (l : list Range) :
  cover x l = 0%nat -> forall r, In r l -> ~ inside x r.
Proof.
  intros Hc r Hin Hx. pose proof (cover_positive x r l Hin Hx). lia.
Qed.

(** What is left of one free interval once a busy block that is not
    empty is taken out: the minutes of the interval outside the block,
    each once. *)
Lemma cover_subtract_from (x : Z) (busy free : Range) :
  start busy < end_ busy ->
  cover x (subtract_from busy free)
  = if insideb x busy then 0%nat
    else if insideb x free then 1%nat else 0%nat.
Proof.
  intros Hbusy. destruct busy as [bs be], free as [fs fe].
  unfold subtract_from, cover, insideb; simpl in *.
  split_tests; simpl; unfold insideb; simpl; split_tests; simpl;
    try reflexivity; try lia.
Qed.

Lemma cover_subtract_busy (x : Z) (busy : Range) (freeIntervals : list Range) :
  cover x (subtract_busy freeIntervals busy)
  = if insideb x busy then 0%nat else cover x freeIntervals.
Proof.
  unfold subtract_busy. destruct (Z.leb_spec (end_ busy) (start busy)) as [Hd|Hd].
  - assert (E : insideb x busy = false).
    { unfold insideb. split_tests; simpl; try reflexivity; lia. }
    rewrite E. reflexivity.
  - induction freeIntervals as [|free l IH]; simpl.
    + destruct (insideb x busy); reflexivity.
    + rewrite cover_app, IH, cover_cons, (cover_subtract_from x busy free Hd).
      destruct (insideb x busy); [reflexivity|].
      destruct (insideb x free); reflexivity.
Qed.

Lemma cover_fold_subtract (x : Z) (busyBlocks freeIntervals : list Range) :
  cover x (fold_left subtract_busy busyBlocks freeIntervals)
  = if existsb (insideb x) busyBlocks then 0%nat else cover x freeIntervals.
Proof.
  revert freeIntervals.
  induction busyBlocks as [|busy l IH]; intros freeIntervals; simpl.
  - reflexivity.
  - rewrite IH, cover_subtract_busy.
    destruct (insideb x busy); simpl; [|reflexivity].
    destruct (existsb (insideb x) l); reflexivity.
Qed.

Lemma existsb_insert_by_start (p : Range -> bool) (b : Range) (l : list Range) :
  existsb p (insert_by_start b l) = p b || existsb p l.
Proof.
  induction l as [|y l IH]; simpl.
  - reflexivity.
  - destruct (start b <=? start y); simpl; [reflexivity|].
    rewrite IH. destruct (p b), (p y); reflexivity.
Qed.

Lemma existsb_sort_by_start (p : Range -> bool) (l : list Range) :
  existsb p (sort_by_start l) = existsb p l.
Proof.
  induction l as [|y l IH]; simpl; [reflexivity|].
  rewrite existsb_insert_by_start, IH. reflexivity.
Qed.

(** How many output ranges hold a minute: none if a busy block holds
    it, and else as many as there are working ranges that hold it. *)
Lemma cover_calculateFreeIntervals (x : Z) (W B : list Range) :
  cover x (calculateFreeIntervals W B)
  = if existsb (insideb x) B then 0%nat else cover x W.
Proof.
  unfold calculateFreeIntervals.
  rewrite cover_fold_subtract, existsb_sort_by_start. reflexivity.
Qed.

Lemma free_outside_busy (x : Z) (W B : list Range) (r b : Range) :
  In r (calculateFreeIntervals W B) -> In b B ->
  inside x r -> ~ inside x b.
Proof.
  intros Hr Hb Hxr Hxb.
  pose proof (cover_positive x r _ Hr Hxr) as Hpos.
  rewrite cover_calculateFreeIntervals in Hpos.
  assert (E : existsb (insideb x) B = true).
  { apply existsb_exists. exists b. split; [exact Hb|].
    apply inside_insideb, Hxb. }
  rewrite E in Hpos. lia.
Qed.

(** The sentence on the subtraction does not hold for all lists of
    working ranges: the working ranges are returned as they are when
    nothing is busy, so a minute that two of them hold lies in two
    output ranges. *)
Lemma overlapping_working_ranges_counted_twice : ~ subtraction_exact.
Proof.
  intros H.
  destruct (H [mkRange 0 10; mkRange 5 15] [] 7) as [_ H2].
  assert (E : cover 7 (calculateFreeIntervals
                         [mkRange 0 10; mkRange 5 15] []) = 2%nat)
    by reflexivity.
  rewrite H2 in E.
  - discriminate E.
  - exists (mkRange 0 10). split; [left; reflexivity | unfold inside; simpl; lia].
  - intros b [].
Qed.

(** C4, amended. For all working ranges [W] and busy ranges [B], no
    minute of an output range of [calculateFreeIntervals] lies in a range
    of [B]; and when the ranges of [W] are pairwise disjoint, every
    minute of [W] that lies in no range of [B] lies in exactly one
    output range. *)
Theorem calculateFreeIntervals_exact (W B : list Range) (x : Z) :
  (forall r b, In r (calculateFreeIntervals W B) -> In b B ->
               inside x r -> ~ inside x b)
  /\ (disjoint_ranges W ->
      (exists r, In r W /\ inside x r) ->
      (forall b, In b B -> ~ inside x b) ->
      cover x (calculateFreeIntervals W B) = 1%nat).
Proof.
  split.
  - intros r b. apply free_outside_busy.
  - intros Hdisj (r & Hr & Hxr) Hfree.
    rewrite cover_calculateFreeIntervals.
    assert (E : existsb (insideb x) B = false).
    { destruct (existsb (insideb x) B) eqn:Ex; [|reflexivity].
      apply existsb_exists in Ex as (b & Hb & Hxb).
      apply inside_insideb in Hxb. destruct (Hfree b Hb Hxb). }
    rewrite E.
    pose proof (cover_positive x r W Hr Hxr).
    pose proof (Hdisj x). lia.
Qed.

Lemma calculateFreeIntervals_exact_witness :
  cover 620 (calculateFreeIntervals
               [mkRange 540 720; mkRange 780 1020]
               [mkRange 600 610; mkRange 900 960]) = 1%nat.
Proof.
  apply (calculateFreeIntervals_exact
           [mkRange 540 720; mkRange 780 1020]
           [mkRange 600 610; mkRange 900 960] 620).
  - intros x. unfold cover, insideb; simpl.
    destruct (Z.leb_spec 540 x), (Z.ltb_spec x 720),
             (Z.leb_spec 780 x), (Z.ltb_spec x 1020); simpl; lia.
  - exists (mkRange 540 720). split; [left; reflexivity|].
    unfold inside; simpl; lia.
  - intros b [<- | [<- | []]]; unfold inside; simpl; lia.
Defined.

(** The starts that the loop emits from [cur] on: they advance by the
    step and the service fits before [limit]. *)
Lemma slots_while_sound (d stp limit cur s : Z) :
  In s (slots_while d stp limit cur) ->
  cur <= s /\ s + d <= limit
  /\ exists k, 0 <= k /\ s = cur + k * step_of stp.
Proof.
  funelim (slots_while d stp limit cur); intros Hin.
  - destruct Hin as [<- | Hin].
    + repeat split; try lia. exists 0. lia.
    + match goal with
      | IH : forall s, In s _ -> _ |- _ =>
          destruct (IH _ Hin) as (Hle & Hfit & k & Hk & ->)
      end.
      assert (1 <= step_of stp) by (unfold step_of; lia).
      repeat split; try lia. exists (k + 1). lia.
  - contradiction.
Qed.

Lemma generateSlots_sound (freeIntervals : list Range) (d stp s : Z) :
  In s (generateSlots freeIntervals d stp) ->
  exists r, In r freeIntervals
            /\ start r <= s /\ s + d <= end_ r
            /\ exists k, 0 <= k /\ s = start r + k * step_of stp.
Proof.
  unfold generateSlots. rewrite in_flat_map.
  intros (r & Hr & Hs). exists r. split; [exact Hr|].
  unfold slots_of_interval in Hs.
  destruct ((end_ r <=? start r) || (end_ r - start r <? d));
    [contradiction|].
  apply slots_while_sound in Hs. tauto.
Qed.

(** C5. Every slot start [s] of [generateSlots] comes from a free range
    [r] of its input with [s + duration <= r.end] (it is the start of
    [r] advanced by a number of steps); and when the free ranges are an
    output of [calculateFreeIntervals], no minute of the slot
    [s, s + duration) lies in a busy range given to it. *)
Theorem generateSlots_fit_and_avoid_busy :
  (forall freeIntervals d stp s,
     In s (generateSlots freeIntervals d stp) ->
     exists r, In r freeIntervals
               /\ start r <= s /\ s + d <= end_ r
               /\ exists k, 0 <= k /\ s = start r + k * step_of stp)
  /\
  (forall W B d stp s b x,
     In s (generateSlots (calculateFreeIntervals W B) d stp) ->
     In b B ->
     s <= x < s + d -> ~ inside x b).
Proof.
  split.
  - apply generateSlots_sound.
  - intros W B d stp s b x Hs Hb Hx.
    apply generateSlots_sound in Hs as (r & Hr & Hlo & Hhi & _).
    apply (free_outside_busy x W B r b Hr Hb).
    unfold inside. lia.
Qed.

Lemma generateSlots_fit_and_avoid_busy_witness :
  (exists r, In r [mkRange 540 600; mkRange 660 1020]
             /\ start r <= 570 /\ 570 + 30 <= end_ r
             /\ exists k, 0 <= k /\ 570 = start r + k * step_of 15)
  /\ ~ inside 599 (mkRange 600 660).
Proof.
  destruct generateSlots_fit_and_avoid_busy as [Hfit Havoid].
  split.
  - apply (Hfit [mkRange 540 600; mkRange 660 1020] 30 15 570).
    vm_compute. tauto.
  - apply (Havoid [mkRange 540 1020] [mkRange 600 660] 30 15 570
                  (mkRange 600 660) 599).
    + vm_compute. tauto.
    + left. reflexivity.
    + lia.
Defined.

End FreeIntervals.

(** ** The availability check *)

Section AvailabilityCheck.

Variable w : World.
Variable helpers : Helpers.

(** The run of a check, stage by stage: what it returns and the calls
    that it has made by then. *)
Lemma checkAvailability_run (o : Options) :
  checkAvailability_with w helpers o
  = if business_timezone_missing w
    then (Return (unavailable [reason_timezone]), [])
    else
      match details_lookup helpers o with
      | (Throw _, t1) => (Return (unavailable [reason_internal]), t1)
      | (Return None, t1) => (Return (unavailable [reason_staff]), t1)
      | (Return (Some sd), t1) =>
          if is_active sd
          then match hours_lookup w helpers o with
               | (Return (Some _), t2) | (Throw _, t2) =>
                   (Return (unavailable [reason_internal]), (t1 ++ t2)%list)
               | (Return None, t2) =>
                   (Return (unavailable [reason_day]), (t1 ++ t2)%list)
               end
          else (Return (unavailable [reason_staff]), t1)
      end.
Proof.
  unfold checkAvailability_with, checkAvailability_try, details_lookup,
         hours_lookup.
  destruct (business_timezone_missing w); [reflexivity|].
  cbv zeta.
  destruct (match staffDetails o with
            | Some provided => ret (Some provided)
            | None => h_getStaffDetails helpers (staffId o) false
            end) as [[[sd|]|message] t1];
    unfold bind, try_catch, ret; cbn [negb];
    rewrite ?app_nil_r; try reflexivity.
  destruct (is_active sd); cbn [negb]; rewrite ?app_nil_r; [|reflexivity].
  destruct (h_getWorkingInterval helpers (staffId o)
              (isoWeekday w (bookingTimezone o) (newBookingStartTimeUTC o)))
    as [[[wi|]|message] t2];
    unfold undeclared, throw; cbn [app]; rewrite ?app_nil_r; reflexivity.
Qed.

(** The results that a check can return. *)
Lemma checkAvailability_cases (o : Options) :
  exists r t,
    checkAvailability_with w helpers o = (Return r, t)
    /\ (r = unavailable [reason_timezone]
        \/ r = unavailable [reason_internal]
        \/ r = unavailable [reason_staff]
        \/ r = unavailable [reason_day]).
Proof.
  rewrite checkAvailability_run.
  destruct (business_timezone_missing w); [eauto 8|].
  destruct (details_lookup helpers o) as [[[sd|]|message] t1]; eauto 8.
  destruct (is_active sd); eauto 8.
  destruct (hours_lookup w helpers o) as [[[wi|]|message] t2]; eauto 8.
Qed.

(** C10. [checkAvailability] is total: whatever the helpers do, and
    also when one of them throws, it throws nothing and returns a
    result; and when the guarded block throws, the result is
    [isAvailable = false] with the single reason "An internal error
    occurred while checking availability.". *)
Theorem checkAvailability_total :
  (forall o, exists r, outcome_of (checkAvailability_with w helpers o) = Return r)
  /\ (forall o message,
        business_timezone_missing w = false ->
        outcome_of (checkAvailability_try w helpers o) = Throw message ->
        outcome_of (checkAvailability_with w helpers o)
        = Return {| isAvailable := false; reasons := [reason_internal] |}).
Proof.
  split.
  - intros o. destruct (checkAvailability_cases o) as (r & t & E & _).
    exists r. rewrite E. reflexivity.
  - intros o message Hzone Hthrow.
    unfold checkAvailability_with. rewrite Hzone.
    destruct (checkAvailability_try w helpers o) as [out t].
    simpl in Hthrow. subst out. reflexivity.
Qed.

End AvailabilityCheck.

(** ** The availability check with the helpers of the module *)

Section ModuleCheck.

Variable w : World.

Lemma getStaffDetails_trace (id : Z) (lock : bool) :
  trace_of (getStaffDetails w id lock) = [DbQuery (SelectStaff id lock)].
Proof.
  unfold getStaffDetails, query, call, bind, ret, try_catch, trace_of.
  destruct (db_error w (SelectStaff id lock)); [reflexivity|].
  destruct (filter _ (staff_table w)); reflexivity.
Qed.

Lemma getWorkingInterval_runs (id dayOfWeek : Z) :
  exists found,
    getWorkingInterval w id dayOfWeek
    = (Return found, [DbQuery (SelectWorkingHours id dayOfWeek)]).
Proof.
  unfold getWorkingInterval, query, call, bind, ret, try_catch.
  destruct (db_error w (SelectWorkingHours id dayOfWeek)); [eauto|].
  destruct (filter _ (working_hours_table w)) as [|row rows]; [eauto|].
  destruct (falsy (wh_start_time row) || falsy (wh_end_time row)); eauto.
Qed.

(** The calls of a check: the lookup of the staff member, when the
    details are not passed in, and the lookup of the working hours. *)
Lemma checkAvailability_calls (o : Options) (e : Event) :
  In e (trace_of (checkAvailability w o)) ->
  e = DbQuery (SelectStaff (staffId o) false)
  \/ e = DbQuery (SelectWorkingHours (staffId o)
                    (isoWeekday w (bookingTimezone o)
                                (newBookingStartTimeUTC o))).
Proof.
  unfold checkAvailability. rewrite checkAvailability_run.
  assert (Hlookup : forall e',
            In e' (trace_of (details_lookup (module_helpers w) o)) ->
            e' = DbQuery (SelectStaff (staffId o) false)).
  { unfold details_lookup. destruct (staffDetails o).
    - intros e' [].
    - cbn [h_getStaffDetails module_helpers].
      rewrite getStaffDetails_trace. intros e' [<- | []]. reflexivity. }
  destruct (getWorkingInterval_runs (staffId o)
              (isoWeekday w (bookingTimezone o) (newBookingStartTimeUTC o)))
    as (found & Ehours).
  unfold hours_lookup. cbn [h_getWorkingInterval module_helpers].
  rewrite Ehours.
  destruct (business_timezone_missing w); [intros []|].
  destruct (details_lookup (module_helpers w) o) as [[[sd|]|message] t1];
    unfold trace_of in *; cbn [snd] in *; try solve [intros Hin; left; auto].
  destruct (is_active sd); [|intros Hin; left; auto].
  destruct found; cbn [snd]; intros Hin; apply in_app_or in Hin;
    (destruct Hin as [Hin | [<- | []]]; [left; auto | right; reflexivity]).
Qed.

(** Every check answers with one reason, after calls that are lookups
    of the staff member and of the working hours. *)
Lemma check_answer (o : Options) :
  exists reason t,
    checkAvailability w o = (Return (unavailable [reason]), t)
    /\ forall e, In e t ->
         exists id d,
           e = DbQuery (SelectStaff id false)
           \/ e = DbQuery (SelectWorkingHours id d).
Proof.
  destruct (checkAvailability_cases w (module_helpers w) o)
    as (r & t & E & Hcases).
  assert (Hcalls : forall e, In e t ->
            exists id d,
              e = DbQuery (SelectStaff id false)
              \/ e = DbQuery (SelectWorkingHours id d)).
  { intros e He.
    assert (Hin : In e (trace_of (checkAvailability w o)))
      by (unfold checkAvailability; rewrite E; exact He).
    destruct (checkAvailability_calls o e Hin) as [-> | ->];
      [ exists (staffId o), 0; left; reflexivity
      | eexists; eexists; right; reflexivity ]. }
  unfold checkAvailability. rewrite E.
  destruct Hcases as [-> | [-> | [-> | ->]]];
    eexists; eexists; (split; [reflexivity | exact Hcalls]).
Qed.

(** C1. The stage of the external calendar is never reached.  Once the
    time zone is configured, the staff member is active and a working
    interval is found for the day, the read of the undeclared name
    [newEndTimeLocal] throws: the check answers [isAvailable = false]
    with the single reason "An internal error occurred while checking
    availability.", whatever the stored bookings and the external
    calendar are, and it has called neither.  The reason "Could not
    verify Google Calendar availability." is never given. *)
Theorem calendar_stage_never_reached (o : Options) :
  (forall sd wi,
     business_timezone_missing w = false ->
     outcome_of (details_lookup (module_helpers w) o) = Return (Some sd) ->
     is_active sd = true ->
     outcome_of (hours_lookup w (module_helpers w) o) = Return (Some wi) ->
     outcome_of (checkAvailability w o)
     = Return (unavailable [reason_internal]))
  /\ (forall r,
        outcome_of (checkAvailability w o) = Return r ->
        isAvailable r = false /\ ~ In reason_unverified (reasons r))
  /\ (forall e,
        In e (trace_of (checkAvailability w o)) ->
        BookingsRoute.is_external_call e = false).
Proof.
  split; [|split].
  - intros sd wi Hzone Hsd Hactive Hwi.
    unfold checkAvailability. rewrite checkAvailability_run, Hzone.
    destruct (details_lookup (module_helpers w) o) as [out1 t1].
    destruct (hours_lookup w (module_helpers w) o) as [out2 t2].
    unfold outcome_of in *. cbn [fst] in *. subst out1 out2.
    rewrite Hactive. reflexivity.
  - intros r Hr.
    destruct (checkAvailability_cases w (module_helpers w) o)
      as (r' & t & E & Hcases).
    unfold checkAvailability in Hr. rewrite E in Hr. cbn in Hr.
    injection Hr as <-.
    split.
    + destruct Hcases as [-> | [-> | [-> | ->]]]; reflexivity.
    + intros Hin.
      destruct Hcases as [-> | [-> | [-> | ->]]];
        (destruct Hin as [Hin | []]; vm_compute in Hin; discriminate Hin).
  - intros e Hin.
    destruct (checkAvailability_calls o e Hin) as [-> | ->]; reflexivity.
Qed.

End ModuleCheck.

Lemma checkAvailability_total_witness :
  outcome_of (checkAvailability Scenario.google_rejects
                (Scenario.request 720 750 None))
  = Return {| isAvailable := false; reasons := [reason_internal] |}.
Proof.
  apply (proj2 (checkAvailability_total Scenario.google_rejects
                  (module_helpers Scenario.google_rejects))
               (Scenario.request 720 750 None)
               "newEndTimeLocal is not defined").
  - reflexivity.
  - vm_compute. reflexivity.
Defined.

Lemma calendar_stage_never_reached_witness :
  outcome_of (getGcalBusyBlocks Scenario.google_down 1 (720 * Scenario.minute)
                (750 * Scenario.minute) (Some Scenario.alice))
  = Return None
  /\ outcome_of (checkAvailability Scenario.google_down
                   (Scenario.request 720 750 None))
     = Return (unavailable [reason_internal]).
Proof.
  split; [reflexivity|].
  apply (proj1 (calendar_stage_never_reached Scenario.google_down
                  (Scenario.request 720 750 None))
               Scenario.alice (mkWorkingInterval "09:00" "17:00"));
    reflexivity.
Defined.

(** ** The stored bookings and the errors of the database *)

Section StoredBookings.

Variable w : World.

Lemma getDbBusyBlocks_outcome (id s e : Z) (exclude : option Z) :
  outcome_of (getDbBusyBlocks w id s e exclude)
  = Return
      (match db_error w (SelectBookingConflicts id s e exclude) with
       | Some _ => []
       | None =>
           map (fun r => {| bb_start := booking_start_time r;
                            bb_end := booking_end_time r |})
               (filter (conflict_row id s e exclude) (bookings_table w))
       end).
Proof.
  unfold getDbBusyBlocks, query, call, bind, try_catch, ret, outcome_of.
  destruct (db_error w (SelectBookingConflicts id s e exclude)); reflexivity.
Qed.

Lemma filter_none {A} (f : A -> bool) (l : list A) :
  (forall a, In a l -> f a = false) -> filter f l = [].
Proof.
  induction l as [|a l IH]; intros Hall; simpl; [reflexivity|].
  rewrite (Hall a (or_introl eq_refl)). apply IH.
  intros a' Ha'. apply Hall. right. exact Ha'.
Qed.

(** The reason of a conflict with a stored booking is in no result of
    the check. *)
Lemma reason_booking_never_given (o : Options) (r : AvailabilityResult) :
  outcome_of (checkAvailability w o) = Return r ->
  ~ In reason_booking (reasons r).
Proof.
  intros Hr Hin.
  destruct (checkAvailability_cases w (module_helpers w) o)
    as (r' & t & E & Hcases).
  unfold checkAvailability in Hr. rewrite E in Hr. cbn in Hr.
  injection Hr as <-.
  destruct Hcases as [-> | [-> | [-> | ->]]];
    (destruct Hin as [Hin | []]; vm_compute in Hin; discriminate Hin).
Qed.

(** C8. When the only confirmed stored booking of the staff member
    that overlaps the requested range is the one whose id is
    [bookingIdToExclude], [getDbBusyBlocks] returns no block for the
    request, and the check does not report the reason "Conflicts with
    another booking in the schedule.": a booking that is rescheduled
    does not conflict with itself. *)
Theorem excluded_booking_not_reported (o : Options) :
  (forall row,
     In row (bookings_table w) ->
     b_staff_id row = staffId o ->
     b_status row = "confirmed" ->
     booking_start_time row < newBookingEndTimeUTC o ->
     newBookingStartTimeUTC o < booking_end_time row ->
     bookingIdToExclude o = Some (booking_id row)) ->
  outcome_of (getDbBusyBlocks w (staffId o) (newBookingStartTimeUTC o)
                (newBookingEndTimeUTC o) (bookingIdToExclude o))
  = Return []
  /\ forall r,
       outcome_of (checkAvailability w o) = Return r ->
       ~ In reason_booking (reasons r).
Proof.
  intros Honly. split; [|apply reason_booking_never_given].
  rewrite getDbBusyBlocks_outcome.
  destruct (db_error w _); [reflexivity|].
  assert (Hnone : filter (conflict_row (staffId o) (newBookingStartTimeUTC o)
                            (newBookingEndTimeUTC o) (bookingIdToExclude o))
                         (bookings_table w) = []).
  { apply filter_none. intros row Hrow.
    destruct (conflict_row _ _ _ _ row) eqn:Hc; [exfalso | reflexivity].
    unfold conflict_row, ranges_overlap in Hc.
    rewrite !andb_true_iff, Z.eqb_eq, String.eqb_eq, !Z.ltb_lt in Hc.
    destruct Hc as (((Hstaff & Hstatus) & ((_ & Hlo) & Hhi)) & Hother).
    rewrite (Honly row Hrow Hstaff Hstatus Hhi Hlo), Z.eqb_refl in Hother.
    discriminate Hother. }
  rewrite Hnone. reflexivity.
Qed.

Lemma getStaffDetails_rejected (id : Z) (lock : bool) (message : string) :
  db_error w (SelectStaff id lock) = Some message ->
  getStaffDetails w id lock = (Return None, [DbQuery (SelectStaff id lock)]).
Proof.
  intros Herr. unfold getStaffDetails, query, call, bind, ret, try_catch.
  rewrite Herr. reflexivity.
Qed.

Lemma getWorkingInterval_rejected (id dayOfWeek : Z) (message : string) :
  db_error w (SelectWorkingHours id dayOfWeek) = Some message ->
  getWorkingInterval w id dayOfWeek
  = (Return None, [DbQuery (SelectWorkingHours id dayOfWeek)]).
Proof.
  intros Herr. unfold getWorkingInterval, query, call, bind, ret, try_catch.
  rewrite Herr. reflexivity.
Qed.

(** C9, amended. No failure leaves [checkAvailability] as an error: it
    always returns a result.  An error of the database in the lookup of
    the staff member or of the working hours is caught by the helper and
    returned as the reason of that stage; an error of the query of the
    stored bookings is caught by [getDbBusyBlocks], which then returns
    no block; and an exception in the guarded block is returned as the
    result with the reason of an internal error. *)
Theorem failures_are_returned_as_data (o : Options) :
  (exists r, outcome_of (checkAvailability w o) = Return r)
  /\ (forall message,
        business_timezone_missing w = false ->
        staffDetails o = None ->
        db_error w (SelectStaff (staffId o) false) = Some message ->
        outcome_of (checkAvailability w o)
        = Return (unavailable [reason_staff]))
  /\ (forall sd message,
        business_timezone_missing w = false ->
        outcome_of (details_lookup (module_helpers w) o) = Return (Some sd) ->
        is_active sd = true ->
        db_error w (SelectWorkingHours (staffId o)
                      (isoWeekday w (bookingTimezone o)
                                  (newBookingStartTimeUTC o)))
        = Some message ->
        outcome_of (checkAvailability w o)
        = Return (unavailable [reason_day]))
  /\ (forall id s e exclude message,
        db_error w (SelectBookingConflicts id s e exclude) = Some message ->
        getDbBusyBlocks w id s e exclude
        = (Return [], [DbQuery (SelectBookingConflicts id s e exclude)]))
  /\ (forall message,
        business_timezone_missing w = false ->
        outcome_of (checkAvailability_try w (module_helpers w) o)
        = Throw message ->
        outcome_of (checkAvailability w o)
        = Return (unavailable [reason_internal])).
Proof.
  split; [|split; [|split; [|split]]].
  - destruct (checkAvailability_cases w (module_helpers w) o)
      as (r & t & E & _).
    exists r. unfold checkAvailability. rewrite E. reflexivity.
  - intros message Hzone Hnone Herr.
    unfold checkAvailability. rewrite checkAvailability_run, Hzone.
    unfold details_lookup. rewrite Hnone.
    cbn [h_getStaffDetails module_helpers].
    rewrite (getStaffDetails_rejected _ _ _ Herr). reflexivity.
  - intros sd message Hzone Hsd Hactive Herr.
    unfold checkAvailability. rewrite checkAvailability_run, Hzone.
    destruct (details_lookup (module_helpers w) o) as [out1 t1].
    unfold outcome_of in Hsd. cbn [fst] in Hsd. subst out1.
    rewrite Hactive. unfold hours_lookup.
    cbn [h_getWorkingInterval module_helpers].
    rewrite (getWorkingInterval_rejected _ _ _ Herr). reflexivity.
  - intros id s e exclude message Herr.
    unfold getDbBusyBlocks, query, call, bind, try_catch, ret.
    rewrite Herr. reflexivity.
  - intros message Hzone Hthrow.
    unfold checkAvailability, checkAvailability_with. rewrite Hzone.
    destruct (checkAvailability_try w (module_helpers w) o) as [out t].
    simpl in Hthrow. subst out. reflexivity.
Qed.

End StoredBookings.

Lemma excluded_booking_not_reported_witness :
  outcome_of (getDbBusyBlocks Scenario.calm 1 (615 * Scenario.minute)
                (645 * Scenario.minute) (Some 7))
  = Return []
  /\ forall r,
       outcome_of (checkAvailability Scenario.calm
                     (Scenario.request 615 645 (Some 7))) = Return r ->
       ~ In reason_booking (reasons r).
Proof.
  apply (excluded_booking_not_reported Scenario.calm
           (Scenario.request 615 645 (Some 7))).
  intros row [<- | []] _ _ _ _. reflexivity.
Defined.

(** The sentence on unexpected failures does not hold as it reads: when
    the query of the working hours is rejected, [getWorkingInterval]
    answers that there is none, and the check returns the result of a
    day without work. *)
Lemma persistence_error_folded_into_result : ~ persistence_errors_propagate.
Proof.
  intros H.
  apply (H Scenario.hours_flaky (Scenario.request 720 750 None)
           (SelectWorkingHours 1 4) "connection terminated" eq_refl)
    with (r := unavailable [reason_day]).
  - vm_compute. tauto.
  - vm_compute. reflexivity.
Qed.

Lemma failures_are_returned_as_data_witness :
  outcome_of (checkAvailability Scenario.hours_flaky
                (Scenario.request 720 750 None))
  = Return (unavailable [reason_day])
  /\ getDbBusyBlocks Scenario.database_flaky 1 0 1 None
     = (Return [], [DbQuery (SelectBookingConflicts 1 0 1 None)]).
Proof.
  split.
  - destruct (failures_are_returned_as_data Scenario.hours_flaky
                (Scenario.request 720 750 None)) as (_ & _ & Hhours & _).
    apply (Hhours Scenario.alice "connection terminated"); reflexivity.
  - destruct (failures_are_returned_as_data Scenario.database_flaky
                (Scenario.request 720 750 None)) as (_ & _ & _ & Hblocks & _).
    apply (Hblocks 1 0 1 None "connection terminated"). reflexivity.
Defined.

(** ** The listing of slots *)

Section SlotListing.

Import SlotsRoute.

Variable w : World.
Variable d : Day.
Variable serviceDuration : Z.

(** The slots that a staff member contributes to [allSlots]. *)
Let contribution (staff : StaffRef) : list Slot :=
  match outcome_of (staff_slots w d serviceDuration staff) with
  | Return value => value
  | Throw _ => []
  end.

(** Each staff member contributes to [allSlots] on its own: what is
    computed for one does not depend on the others. *)
Lemma all_slots_outcome (eligibleStaff : list StaffRef) :
  outcome_of (all_slots w d serviceDuration eligibleStaff)
  = Return (flat_map contribution eligibleStaff).
Proof.
  induction eligibleStaff as [|staff rest IH]; [reflexivity|].
  simpl. unfold contribution at 1.
  destruct (staff_slots w d serviceDuration staff) as [[value | message] t];
    unfold bind, ret, outcome_of in *; simpl in *.
  - destruct (all_slots w d serviceDuration rest) as [out t'].
    simpl in IH. subst out. reflexivity.
  - destruct (all_slots w d serviceDuration rest) as [out t'].
    simpl in IH. subst out. reflexivity.
Qed.

(** The sentence on the listing does not hold as it reads: with the
    Google client missing, Alice is still offered from 09:00 on. *)
Lemma unverified_staff_still_listed : ~ unverified_staff_has_no_slot.
Proof.
  intros H.
  specialize (H Scenario.google_down Scenario.thursday 30 Scenario.alice_ref
                Scenario.alice eq_refl eq_refl).
  vm_compute in H. discriminate H.
Qed.

(** C2, amended. In the listing of slots, for an eligible staff member
    whose external calendar cannot be verified, the external calendar is
    left out: the slot candidates of that staff member are those of the
    working hours less the stored bookings; the candidates of every
    eligible staff member are computed staff by staff and all of them
    are in [allSlots]; and the answer of [GET] is built from [allSlots]. *)
Theorem unverified_calendar_ignored_in_listing :
  (forall staff sd wi blocks,
     outcome_of (getStaffDetails w (ref_staff_id staff) false)
     = Return (Some sd) ->
     is_active sd = true ->
     outcome_of (getWorkingInterval w (ref_staff_id staff) (dayOfWeek d))
     = Return (Some wi) ->
     (timeToMinutes (Some (wi_start wi)) <? 0)
     || (timeToMinutes (Some (wi_end wi))
         <=? timeToMinutes (Some (wi_start wi))) = false ->
     outcome_of (getDbBusyBlocks w (ref_staff_id staff) (dayStart d)
                   (dayEnd d) None) = Return blocks ->
     outcome_of (getGcalBusyBlocks w (ref_staff_id staff) (dayStart d)
                   (dayEnd d) (Some sd)) = Return None ->
     outcome_of (staff_slots w d serviceDuration staff)
     = Return (slots_for staff serviceDuration
                 [mkRange (timeToMinutes (Some (wi_start wi)))
                          (timeToMinutes (Some (wi_end wi)))]
                 (busy_minutes d blocks)))
  /\ (forall before staff after,
        exists slots others others',
          outcome_of (staff_slots w d serviceDuration staff) = Return slots
          /\ outcome_of (all_slots w d serviceDuration before) = Return others
          /\ outcome_of (all_slots w d serviceDuration after) = Return others'
          /\ outcome_of (all_slots w d serviceDuration
                           (before ++ staff :: after))
             = Return (others ++ slots ++ others')%list)
  /\ (forall parsedServiceId parsedStaffId service services staff others,
        business_timezone_missing w = false ->
        db_error w (SelectService parsedServiceId false) = None ->
        db_error w (SelectEligibleStaff parsedServiceId parsedStaffId) = None ->
        filter (fun r => (service_id r =? parsedServiceId)
                         && service_is_active r) (services_table w)
        = service :: services ->
        duration_minutes service = serviceDuration ->
        eligible_staff w parsedServiceId parsedStaffId = staff :: others ->
        exists allSlots,
          outcome_of (all_slots w d serviceDuration (staff :: others))
          = Return allSlots
          /\ outcome_of (GET w parsedServiceId d parsedStaffId)
             = Return (Json (final_slots parsedStaffId allSlots))).
Proof.
  split; [|split].
  - intros staff sd wi blocks Hsd Hactive Hwi Hhours Hdb Hgcal.
    unfold staff_slots.
    destruct (getStaffDetails w (ref_staff_id staff) false) as [o1 t1].
    destruct (getWorkingInterval w (ref_staff_id staff) (dayOfWeek d))
      as [o2 t2].
    destruct (getDbBusyBlocks w (ref_staff_id staff) (dayStart d) (dayEnd d)
                None) as [o3 t3].
    destruct (getGcalBusyBlocks w (ref_staff_id staff) (dayStart d) (dayEnd d)
                (Some sd)) as [o4 t4] eqn:E4.
    unfold outcome_of in *. simpl in Hsd, Hwi, Hdb, Hgcal. subst.
    unfold bind, ret, try_catch. cbv beta iota zeta.
    rewrite Hactive. cbv beta iota zeta. rewrite Hhours. cbv beta iota zeta.
    rewrite E4. cbn [fst snd]. rewrite app_nil_r. reflexivity.
  - intros before staff after.
    exists (contribution staff), (flat_map contribution before),
           (flat_map contribution after).
    rewrite !all_slots_outcome, flat_map_app. simpl.
    repeat split.
    unfold contribution, staff_slots, try_catch, ret, outcome_of.
    destruct (_ <- getStaffDetails w (ref_staff_id staff) false ;; _)
      as [[value | message] t]; reflexivity.
  - intros parsedServiceId parsedStaffId service services staff others
           Hzone Hservice Heligible Hrow Hduration Hstaff.
    exists (flat_map contribution (staff :: others)).
    split; [apply all_slots_outcome|].
    pose proof (all_slots_outcome (staff :: others)) as Hall.
    unfold GET, query, call, bind, try_catch, ret.
    rewrite Hzone, Hservice, Heligible, Hrow, Hstaff, Hduration.
    destruct (all_slots w d serviceDuration (staff :: others)) as [out t].
    unfold outcome_of in Hall. simpl in Hall. subst out. reflexivity.
Qed.

End SlotListing.

Lemma unverified_calendar_ignored_in_listing_witness :
  outcome_of (SlotsRoute.staff_slots Scenario.google_down Scenario.thursday 30
                Scenario.alice_ref)
  = Return (SlotsRoute.slots_for Scenario.alice_ref 30 [mkRange 540 1020]
              [mkRange 600 660]).
Proof.
  apply (proj1 (unverified_calendar_ignored_in_listing Scenario.google_down
                  Scenario.thursday 30)
               Scenario.alice_ref Scenario.alice
               (mkWorkingInterval "09:00" "17:00")
               [mkBusyBlock (600 * Scenario.minute) (660 * Scenario.minute)]);
    reflexivity.
Defined.

(** ** The creation of a booking *)

Ltac reduce_post H :=
  cbv beta iota zeta in H;
  cbn [app fst snd negb Availability.isAvailable Availability.reasons
       Availability.unavailable] in H.

(** The run of [POST] in the hypothesis [H], case by case; the check of
    the availability is replaced by its answer. *)
Ltac run_post H :=
  unfold BookingsRoute.POST, BookingsRoute.transaction,
         BookingsRoute.getServiceDetails, BookingsRoute.findOrCreateCustomer,
         Availability.getStaffDetails,
         finally, try_catch, bind, ret, throw, Availability.query, call,
         BookingsRoute.error_response in H;
  reduce_post H;
  repeat match type of H with
    | context [match Availability.checkAvailability ?w ?o with _ => _ end] =>
        let reason := fresh "reason" in
        let calls := fresh "calls" in
        let E := fresh "Echeck" in
        let Hcalls := fresh "Hcalls" in
        destruct (check_answer w o) as (reason & calls & E & Hcalls);
        rewrite E in H; reduce_post H
    | context [match ?x with _ => _ end] =>
        lazymatch x with
        | context [match _ with _ => _ end] => fail
        | _ => destruct x eqn:?; reduce_post H
        end
    end.


Section BookingCreation.

Import BookingsRoute.


End BookingCreation.


(* ===================================================================== *)
(** * Part III. Further properties of the code                            *)
(* ===================================================================== *)

(** ** Time of day, continued *)

Section TimeOfDayMore.

Import WorkingHoursRoute.

Lemma timeToMinutes_bounds (timeStr : option string) :
  timeToMinutes timeStr = invalid \/ 0 <= timeToMinutes timeStr <= 1439.
Proof.
  destruct timeStr as [[|c s]|]; try (left; reflexivity).
  unfold timeToMinutes.
  destruct (split ":"%char (String c s)) as [|p0 [|p1 rest]];
    try (left; reflexivity).
  destruct (parseInt p0) as [hours|]; [|left; reflexivity].
  destruct (parseInt p1) as [minutes|]; [|left; reflexivity].
  destruct ((hours <? 0) || (hours >? 23) || (minutes <? 0) || (minutes >? 59))
    eqn:Hbad; [left; reflexivity | right].
  rewrite !orb_false_iff, !Z.gtb_ltb, !Z.ltb_ge in Hbad. lia.
Qed.

(** [timeToMinutes] gives the invalid marker or a minute of the day. *)
Theorem timeToMinutes_range (timeStr : option string) :
  timeToMinutes timeStr = invalid \/ 0 <= timeToMinutes timeStr <= 1439.
Proof.
  exact (timeToMinutes_bounds timeStr).
Qed.

(** The minute that [formatTime] writes: the argument taken modulo a
    day, and midnight for a negative or missing argument. *)
Lemma formatTime_wraps (totalMinutes : option Z) :
  exists m,
    0 <= m <= 1439
    /\ m = match totalMinutes with
           | Some t => if t <? 0 then 0 else t mod 1440
           | None => 0
           end
    /\ formatTime totalMinutes = formatTime (Some m).
Proof.
  exists (match totalMinutes with
          | Some t => if t <? 0 then 0 else t mod 1440
          | None => 0
          end).
  assert (Hwrap : forall t, 0 <= t ->
            formatTime (Some t) = formatTime (Some (t mod 1440))).
  { intros t Ht. unfold formatTime.
    pose proof (Z.mod_pos_bound t 1440 ltac:(lia)) as Hm.
    destruct (Z.ltb_spec t 0); [lia|].
    destruct (Z.ltb_spec (t mod 1440) 0); [lia|].
    change (24 * 60) with 1440.
    rewrite (Z.rem_mod_nonneg t 1440) by lia.
    rewrite (Z.rem_mod_nonneg (t mod 1440) 1440) by lia.
    rewrite Z.mod_mod by lia. reflexivity. }
  destruct totalMinutes as [t|].
  - destruct (Z.ltb_spec t 0).
    + repeat split; try lia. unfold formatTime.
      destruct (Z.ltb_spec t 0); [reflexivity | lia].
    + pose proof (Z.mod_pos_bound t 1440 ltac:(lia)).
      repeat split; try lia. apply Hwrap. lia.
  - repeat split; try lia.
Qed.

(** For an argument that is an integer, and for one that is missing or
    [NaN], [formatTime] writes five characters, and [timeToMinutes]
    reads them back as the argument modulo a day (as midnight when the
    argument is negative, missing or [NaN]): never "24:00", never an
    invalid time. *)
Theorem formatTime_well_formed (totalMinutes : option Z) :
  String.length (formatTime totalMinutes) = 5%nat
  /\ hh_mm (formatTime totalMinutes) = true
  /\ timeToMinutes (Some (formatTime totalMinutes))
     = match totalMinutes with
       | Some t => if t <? 0 then 0 else t mod 1440
       | None => 0
       end.
Proof.
  destruct (formatTime_wraps totalMinutes) as (m & Hm & <- & ->).
  assert (Hall : (String.length (formatTime (Some m)) =? 5)%nat
                 && hh_mm (formatTime (Some m))
                 && (timeToMinutes (Some (formatTime (Some m))) =? m) = true).
  { apply (checked_below
             (fun k => (String.length (formatTime (Some k)) =? 5)%nat
                       && hh_mm (formatTime (Some k))
                       && (timeToMinutes (Some (formatTime (Some k))) =? k))
             1440); [vm_compute; reflexivity | lia]. }
  rewrite !andb_true_iff, Nat.eqb_eq, Z.eqb_eq in Hall. tauto.
Qed.

(** A digit is one of the ten characters from "0" to "9". *)
Lemma digit_char (c : ascii) (d : Z) :
  digit_value c = Some d ->
  0 <= d <= 9 /\ c = ascii_of_N (Z.to_N (48 + d)).
Proof.
  destruct c as [[] [] [] [] [] [] [] []]; vm_compute; intros H;
    try discriminate H; injection H as <-; split;
    first [reflexivity | split; discriminate].
Qed.

Lemma checked_digits (P : Z -> Z -> Z -> Z -> bool) :
  forallb (fun a => forallb (fun b => forallb (fun c => forallb (fun d =>
     P (Z.of_nat a) (Z.of_nat b) (Z.of_nat c) (Z.of_nat d))
     (seq 0 10)) (seq 0 10)) (seq 0 10)) (seq 0 10) = true ->
  forall a b c d,
    0 <= a <= 9 -> 0 <= b <= 9 -> 0 <= c <= 9 -> 0 <= d <= 9 ->
    P a b c d = true.
Proof.
  intros Hall a b c d Ha Hb Hc Hd.
  pose proof (checked_below
    (fun a => forallb (fun b => forallb (fun c => forallb (fun d =>
       P a (Z.of_nat b) (Z.of_nat c) (Z.of_nat d))
       (seq 0 10)) (seq 0 10)) (seq 0 10)) 10 Hall a ltac:(lia)) as H1.
  pose proof (checked_below
    (fun b => forallb (fun c => forallb (fun d =>
       P a b (Z.of_nat c) (Z.of_nat d))
       (seq 0 10)) (seq 0 10)) 10 H1 b ltac:(lia)) as H2.
  pose proof (checked_below
    (fun c => forallb (fun d => P a b c (Z.of_nat d)) (seq 0 10))
    10 H2 c ltac:(lia)) as H3.
  exact (checked_below (fun d => P a b c d) 10 H3 d ltac:(lia)).
Qed.

(** On a string of the form two digits, colon, two digits,
    [timeToMinutes] reads the hour [h] and the minute [m] that the digits
    write, and gives [60 h + m] when [h <= 23] and [m <= 59], and the
    invalid marker otherwise; when the result is valid, [formatTime]
    writes the string back. *)
Theorem timeToMinutes_on_hh_mm (s : string) :
  hh_mm s = true ->
  (exists h m,
     0 <= h <= 99 /\ 0 <= m <= 99
     /\ s = two_digits h ++ ":" ++ two_digits m
     /\ timeToMinutes (Some s)
        = if (h <=? 23) && (m <=? 59) then h * 60 + m else invalid)
  /\ (timeToMinutes (Some s) <> invalid ->
      formatTime (Some (timeToMinutes (Some s))) = s).
Proof.
  intros Hs.
  destruct s as [|c1 [|c2 [|c3 [|c4 [|c5 [|c6 s]]]]]]; try discriminate Hs.
  unfold hh_mm, is_digit in Hs.
  destruct (digit_value c1) as [d1|] eqn:E1; [|discriminate Hs].
  destruct (digit_value c2) as [d2|] eqn:E2; [|discriminate Hs].
  destruct (Ascii.eqb_spec c3 ":"%char) as [->|]; [|discriminate Hs].
  destruct (digit_value c4) as [d3|] eqn:E3; [|discriminate Hs].
  destruct (digit_value c5) as [d4|] eqn:E4; [|discriminate Hs].
  apply digit_char in E1 as [H1 ->], E2 as [H2 ->],
                      E3 as [H3 ->], E4 as [H4 ->].
  pose proof (checked_digits
    (fun a b c d =>
       let chr x := ascii_of_N (Z.to_N (48 + x)) in
       let s := String (chr a) (String (chr b) (String ":"%char
                  (String (chr c) (String (chr d) EmptyString)))) in
       let h := 10 * a + b in
       let m := 10 * c + d in
       String.eqb s (two_digits h ++ ":" ++ two_digits m)
       && (timeToMinutes (Some s)
           =? (if (h <=? 23) && (m <=? 59) then h * 60 + m else invalid))
       && (if timeToMinutes (Some s) =? invalid then true
           else String.eqb (formatTime (Some (timeToMinutes (Some s)))) s))
    ltac:(vm_compute; reflexivity) d1 d2 d3 d4 H1 H2 H3 H4) as Hall.
  cbv zeta in Hall.
  rewrite !andb_true_iff, String.eqb_eq, Z.eqb_eq in Hall.
  destruct Hall as [[Hshape Hvalue] Hback].
  split.
  - exists (10 * d1 + d2), (10 * d3 + d4).
    repeat split; try lia; assumption.
  - intros Hvalid.
    destruct (Z.eqb_spec
                (timeToMinutes
                   (Some (String (ascii_of_N (Z.to_N (48 + d1)))
                            (String (ascii_of_N (Z.to_N (48 + d2)))
                               (String ":"%char
                                  (String (ascii_of_N (Z.to_N (48 + d3)))
                                     (String (ascii_of_N (Z.to_N (48 + d4)))
                                        EmptyString)))))))
                invalid) as [E|_]; [contradiction|].
    apply String.eqb_eq. exact Hback.
Qed.

Lemma timeToMinutes_on_hh_mm_witness :
  formatTime (Some (timeToMinutes (Some "17:45"))) = "17:45".
Proof.
  apply (proj2 (timeToMinutes_on_hh_mm "17:45" eq_refl)).
  vm_compute. discriminate.
Defined.

End TimeOfDayMore.

(** ** Free intervals and slots, continued *)

Section FreeIntervalsMore.

Ltac split_tests :=
  repeat match goal with
    | |- context [?a <=? ?b] => destruct (Z.leb_spec a b)
    | |- context [?a <? ?b] => destruct (Z.ltb_spec a b)
    | |- context [?a >? ?b] => rewrite (Z.gtb_ltb a b)
    | H : context [?a <=? ?b] |- _ => destruct (Z.leb_spec a b)
    | H : context [?a <? ?b] |- _ => destruct (Z.ltb_spec a b)
    | H : context [?a >? ?b] |- _ => rewrite (Z.gtb_ltb a b) in H
    end.

Lemma subtract_from_within (busy free r : Range) :
  In r (subtract_from busy free) ->
  start free <= start r /\ end_ r <= end_ free /\ start r < end_ r.
Proof.
  destruct busy as [bs be], free as [fs fe].
  unfold subtract_from; simpl. intros Hin.
  split_tests; simpl in Hin;
    repeat (destruct Hin as [<- | Hin]); try contradiction; simpl; lia.
Qed.

Lemma subtract_busy_within (freeIntervals : list Range) (busy r : Range) :
  In r (subtract_busy freeIntervals busy) ->
  exists free,
    In free freeIntervals
    /\ start free <= start r /\ end_ r <= end_ free
    /\ (start r < end_ r \/ (r = free /\ end_ busy <= start busy)).
Proof.
  unfold subtract_busy.
  destruct (Z.leb_spec (end_ busy) (start busy)) as [Hempty | Hbusy].
  - intros Hin. exists r. repeat split; try lia; auto.
  - rewrite in_flat_map. intros (free & Hfree & Hin).
    apply subtract_from_within in Hin. exists free. tauto.
Qed.

Lemma fold_subtract_within (busyBlocks freeIntervals : list Range) (r : Range) :
  In r (fold_left subtract_busy busyBlocks freeIntervals) ->
  exists free,
    In free freeIntervals
    /\ start free <= start r /\ end_ r <= end_ free
    /\ (start r < end_ r
        \/ (r = free /\ forall b, In b busyBlocks -> end_ b <= start b)).
Proof.
  revert freeIntervals.
  induction busyBlocks as [|busy rest IH]; intros freeIntervals; simpl.
  - intros Hin. exists r. repeat split; try lia; auto.
    right. split; [reflexivity | intros b []].
  - intros Hin.
    destruct (IH _ Hin) as (mid & Hmid & Hlo & Hhi & Hr).
    destruct (subtract_busy_within _ _ _ Hmid)
      as (free & Hfree & Hlo' & Hhi' & Hm).
    exists free. repeat split; try lia; auto.
    destruct Hr as [Hr | [-> Hrest]]; [left; exact Hr|].
    destruct Hm as [Hm | [-> Hbusy]]; [left; exact Hm|].
    right. split; [reflexivity|].
    intros b [<- | Hb]; auto.
Qed.

Lemma in_insert_by_start (x y : Range) (l : list Range) :
  In y (insert_by_start x l) <-> y = x \/ In y l.
Proof.
  induction l as [|z l IH]; simpl.
  - intuition.
  - destruct (start x <=? start z); simpl; [intuition|].
    rewrite IH. intuition.
Qed.

Lemma in_sort_by_start (y : Range) (l : list Range) :
  In y (sort_by_start l) <-> In y l.
Proof.
  induction l as [|z l IH]; simpl; [reflexivity|].
  rewrite in_insert_by_start, IH. intuition.
Qed.

(** Every range that [calculateFreeIntervals] returns lies within one of
    the working ranges; it holds at least one minute, unless it is a
    working range returned as it was given because no busy block holds a
    minute. *)
Theorem calculateFreeIntervals_within (W B : list Range) (r : Range) :
  In r (calculateFreeIntervals W B) ->
  exists working,
    In working W
    /\ start working <= start r /\ end_ r <= end_ working
    /\ (start r < end_ r
        \/ (r = working /\ forall b, In b B -> end_ b <= start b)).
Proof.
  intros Hin. unfold calculateFreeIntervals in Hin.
  destruct (fold_subtract_within _ _ _ Hin) as (free & Hfree & Hlo & Hhi & Hr).
  exists free. repeat split; auto.
  destruct Hr as [Hr | [-> Hall]]; [left; exact Hr | right].
  split; [reflexivity|]. intros b Hb. apply Hall, in_sort_by_start, Hb.
Qed.

Lemma calculateFreeIntervals_within_witness :
  exists working,
    In working [mkRange 540 1020]
    /\ start working <= 660 /\ 1020 <= end_ working
    /\ (660 < 1020
        \/ (mkRange 660 1020 = working
            /\ forall b, In b [mkRange 600 660] -> end_ b <= start b)).
Proof.
  apply (calculateFreeIntervals_within [mkRange 540 1020] [mkRange 600 660]
                                       (mkRange 660 1020)).
  vm_compute. tauto.
Defined.

(** Busy blocks that hold no minute take nothing away: when every busy
    block is empty (also when there is none), the working ranges are
    returned as they are. *)
Theorem calculateFreeIntervals_nothing_busy (W B : list Range) :
  (forall b, In b B -> end_ b <= start b) ->
  calculateFreeIntervals W B = W.
Proof.
  intros Hempty. unfold calculateFreeIntervals.
  assert (Hsorted : forall b, In b (sort_by_start B) -> end_ b <= start b).
  { intros b Hb. apply Hempty, in_sort_by_start, Hb. }
  revert Hsorted. generalize (sort_by_start B) as l. clear Hempty.
  induction l as [|b l IH]; intros Hall; simpl; [reflexivity|].
  unfold subtract_busy at 2.
  destruct (Z.leb_spec (end_ b) (start b)) as [_ | Hlt].
  - apply IH. intros b' Hb'. apply Hall. right. exact Hb'.
  - specialize (Hall b (or_introl eq_refl)). lia.
Qed.

Lemma calculateFreeIntervals_nothing_busy_witness :
  calculateFreeIntervals [mkRange 540 1020] [mkRange 700 700; mkRange 800 600]
  = [mkRange 540 1020].
Proof.
  apply calculateFreeIntervals_nothing_busy.
  intros b [<- | [<- | []]]; simpl; lia.
Defined.

(** The minutes that the result holds depend on the busy blocks as a
    set: their order and their repetitions do not matter. *)
Theorem calculateFreeIntervals_order_irrelevant (W B B' : list Range) (x : Z) :
  (forall b, In b B <-> In b B') ->
  cover x (calculateFreeIntervals W B) = cover x (calculateFreeIntervals W B').
Proof.
  intros Hsame. rewrite !cover_calculateFreeIntervals.
  assert (E : existsb (insideb x) B = existsb (insideb x) B').
  { apply eq_true_iff_eq. rewrite !existsb_exists.
    split; intros (b & Hb & Hx); exists b; split; auto; apply Hsame, Hb. }
  rewrite E. reflexivity.
Qed.

Lemma calculateFreeIntervals_order_irrelevant_witness :
  cover 700 (calculateFreeIntervals [mkRange 540 1020]
               [mkRange 600 660; mkRange 900 960])
  = cover 700 (calculateFreeIntervals [mkRange 540 1020]
                 [mkRange 900 960; mkRange 600 660; mkRange 900 960]).
Proof.
  apply calculateFreeIntervals_order_irrelevant.
  intros b. simpl. tauto.
Defined.

(** Working ranges that are pairwise disjoint give free ranges that are
    pairwise disjoint. *)
Theorem calculateFreeIntervals_keeps_disjoint (W B : list Range) :
  disjoint_ranges W -> disjoint_ranges (calculateFreeIntervals W B).
Proof.
  intros Hdisjoint x. rewrite cover_calculateFreeIntervals.
  destruct (existsb (insideb x) B); [lia | apply Hdisjoint].
Qed.

Lemma calculateFreeIntervals_keeps_disjoint_witness :
  disjoint_ranges (calculateFreeIntervals [mkRange 540 1020]
                     [mkRange 600 660]).
Proof.
  apply calculateFreeIntervals_keeps_disjoint.
  intros x. unfold cover, insideb; simpl.
  destruct (Z.leb_spec 540 x), (Z.ltb_spec x 1020); simpl; lia.
Defined.

(** The starts that the loop of [generateSlots] emits from [cur]: the
    points [cur], [cur + step], ... as long as the service ends by
    [limit], in this order. *)
Lemma slots_while_closed_form (d stp limit cur : Z) :
  slots_while d stp limit cur
  = map (fun k => cur + Z.of_nat k * step_of stp)
        (seq 0 (Z.to_nat ((limit - d - cur) / step_of stp + 1))).
Proof.
  funelim (slots_while d stp limit cur);
    assert (Hstep : 1 <= step_of stp) by (unfold step_of; lia).
  - match goal with
    | IH : slots_while _ _ _ (_ + _) = map _ _ |- _ => rewrite IH
    end.
    replace (limit - d - (cur + step_of stp))
      with (limit - d - cur + (-1) * step_of stp) by lia.
    rewrite Z.div_add by lia.
    assert (0 <= (limit - d - cur) / step_of stp)
      by (apply Z.div_pos; lia).
    replace (Z.to_nat ((limit - d - cur) / step_of stp + 1))
      with (S (Z.to_nat ((limit - d - cur) / step_of stp + -1 + 1)))
      by lia.
    rewrite <- cons_seq, <- seq_shift. cbn [map]. f_equal; [lia|].
    rewrite map_map. apply map_ext. intros k. rewrite Nat2Z.inj_succ. lia.
  - assert ((limit - d - cur) / step_of stp < 0)
      by (apply Z.div_lt_upper_bound; lia).
    replace (Z.to_nat ((limit - d - cur) / step_of stp + 1)) with O by lia.
    reflexivity.
Qed.

(** The slots of one free range that can hold the service: its start
    advanced by 0, 1, 2, ... steps, in ascending order, as many as fit. *)
Theorem generateSlots_of_one_range (r : Range) (d stp : Z) :
  start r < end_ r -> d <= end_ r - start r ->
  generateSlots [r] d stp
  = map (fun k => start r + Z.of_nat k * step_of stp)
        (seq 0 (Z.to_nat ((end_ r - start r - d) / step_of stp + 1))).
Proof.
  intros Hr Hd. unfold generateSlots, slots_of_interval. simpl.
  destruct (Z.leb_spec (end_ r) (start r)); [lia|].
  destruct (Z.ltb_spec (end_ r - start r) d); [lia|]. simpl.
  rewrite app_nil_r, slots_while_closed_form.
  replace (end_ r - d - start r) with (end_ r - start r - d) by lia.
  reflexivity.
Qed.

Lemma generateSlots_of_one_range_witness :
  generateSlots [mkRange 540 720] 60 30
  = map (fun k => 540 + Z.of_nat k * step_of 30)
        (seq 0 (Z.to_nat ((720 - 540 - 60) / step_of 30 + 1))).
Proof.
  apply (generateSlots_of_one_range (mkRange 540 720) 60 30); simpl; lia.
Defined.

(** [generateSlots] misses no start: in a free range of the list that can
    hold the service, every point of the grid of steps from the start of
    the range at which the service still ends within the range is
    emitted. *)
Theorem generateSlots_complete (freeIntervals : list Range) (r : Range)
        (d stp k : Z) :
  In r freeIntervals ->
  start r < end_ r -> 0 <= k ->
  start r + k * step_of stp + d <= end_ r ->
  In (start r + k * step_of stp) (generateSlots freeIntervals d stp).
Proof.
  intros Hr Hne Hk Hfit.
  assert (Hstep : 1 <= step_of stp) by (unfold step_of; lia).
  unfold generateSlots. apply in_flat_map. exists r. split; [exact Hr|].
  unfold slots_of_interval.
  destruct (Z.leb_spec (end_ r) (start r)); [lia|].
  destruct (Z.ltb_spec (end_ r - start r) d); [nia|]. simpl.
  rewrite slots_while_closed_form. apply in_map_iff.
  exists (Z.to_nat k). split; [lia|].
  apply in_seq. split; [lia|]. simpl.
  assert (k <= (end_ r - d - start r) / step_of stp)
    by (apply Z.div_le_lower_bound; lia).
  lia.
Qed.

Lemma generateSlots_complete_witness :
  In (660 + 22 * step_of 15)
     (generateSlots [mkRange 540 600; mkRange 660 1020] 30 15).
Proof.
  apply (generateSlots_complete [mkRange 540 600; mkRange 660 1020]
                                (mkRange 660 1020) 30 15 22).
  - right. left. reflexivity.
  - simpl. lia.
  - lia.
  - vm_compute. discriminate.
Defined.

End FreeIntervalsMore.

(** ** The availability check, continued *)

Section AvailabilityMore.

Variable w : World.

(** [checkAvailability] never answers that a time is available.
    Whatever the helpers do, its result is [isAvailable = false] with
    exactly one reason: the time zone, the staff member, the day without
    work, or the internal error. *)
Theorem checkAvailability_never_available (helpers : Helpers) (o : Options)
        (r : AvailabilityResult) :
  outcome_of (checkAvailability_with w helpers o) = Return r ->
  isAvailable r = false
  /\ exists reason,
       reasons r = [reason]
       /\ (reason = reason_timezone \/ reason = reason_staff
           \/ reason = reason_day \/ reason = reason_internal).
Proof.
  intros Hr.
  destruct (checkAvailability_cases w helpers o) as (r' & t & E & Hcases).
  rewrite E in Hr. cbn in Hr. injection Hr as <-.
  destruct Hcases as [-> | [-> | [-> | ->]]];
    (split; [reflexivity | eexists; split; [reflexivity | tauto]]).
Qed.

(** The only calls of [checkAvailability] are the query of the staff
    member, without a lock, and the query of the working hours of the
    local weekday: it never asks for the stored bookings and never
    contacts Google Calendar. *)
Theorem checkAvailability_only_reads (o : Options) (e : Event) :
  In e (trace_of (checkAvailability w o)) ->
  e = DbQuery (SelectStaff (staffId o) false)
  \/ e = DbQuery (SelectWorkingHours (staffId o)
                    (isoWeekday w (bookingTimezone o)
                                (newBookingStartTimeUTC o))).
Proof. apply checkAvailability_calls. Qed.

(** A stage that fails ends the check before the next lookup: with the
    time zone not configured nothing is called, and for a staff member
    missing or inactive the working hours are not asked for. *)
Theorem failed_stage_ends_the_check (o : Options) (r : AvailabilityResult)
        (t : list Event) :
  checkAvailability w o = (Return r, t) ->
  (r = unavailable [reason_timezone] -> t = [])
  /\ (r = unavailable [reason_staff] ->
      forall e, In e t -> e = DbQuery (SelectStaff (staffId o) false)).
Proof.
  unfold checkAvailability. rewrite checkAvailability_run. intros H.
  assert (Hlookup : forall e,
            In e (trace_of (details_lookup (module_helpers w) o)) ->
            e = DbQuery (SelectStaff (staffId o) false)).
  { unfold details_lookup. destruct (staffDetails o).
    - intros e [].
    - cbn [h_getStaffDetails module_helpers].
      rewrite getStaffDetails_trace. intros e [<- | []]. reflexivity. }
  destruct (business_timezone_missing w).
  { injection H as <- <-. split; [reflexivity|]. intros _ e []. }
  destruct (details_lookup (module_helpers w) o) as [[[sd|]|message] t1];
    unfold trace_of in Hlookup; cbn [snd] in Hlookup.
  - destruct (is_active sd).
    + destruct (hours_lookup w (module_helpers w) o) as [[[wi|]|message] t2];
        injection H as <- <-;
        (split; intros Hr; vm_compute in Hr; discriminate Hr).
    + injection H as <- <-.
      split; [intros Hr; vm_compute in Hr; discriminate Hr | auto].
  - injection H as <- <-.
    split; [intros Hr; vm_compute in Hr; discriminate Hr | auto].
  - injection H as <- <-.
    split; intros Hr; vm_compute in Hr; discriminate Hr.
Qed.

(** An error of the database in the lookup of the staff member is read
    as a staff member that is missing, and an error in the lookup of the
    working hours as a day without work: the check answers with the
    reason of that stage and goes no further. *)
Theorem lookup_errors_read_as_absence (o : Options) :
  business_timezone_missing w = false ->
  (forall message,
     staffDetails o = None ->
     db_error w (SelectStaff (staffId o) false) = Some message ->
     checkAvailability w o
     = (Return (unavailable [reason_staff]),
        [DbQuery (SelectStaff (staffId o) false)]))
  /\ (forall sd message,
        staffDetails o = Some sd -> is_active sd = true ->
        db_error w (SelectWorkingHours (staffId o)
                      (isoWeekday w (bookingTimezone o)
                                  (newBookingStartTimeUTC o)))
        = Some message ->
        checkAvailability w o
        = (Return (unavailable [reason_day]),
           [DbQuery (SelectWorkingHours (staffId o)
                       (isoWeekday w (bookingTimezone o)
                                   (newBookingStartTimeUTC o)))])).
Proof.
  intros Hzone. split.
  - intros message Hnone Herr.
    unfold checkAvailability, checkAvailability_with, checkAvailability_try,
      module_helpers, h_getStaffDetails, getStaffDetails, query, call, bind,
      ret, try_catch.
    rewrite Hzone, Hnone, Herr. reflexivity.
  - intros sd message Hsd Hactive Herr.
    unfold checkAvailability, checkAvailability_with, checkAvailability_try,
      module_helpers, h_getWorkingInterval, getWorkingInterval, query, call,
      bind, ret, try_catch.
    rewrite Hzone, Hsd. cbv beta iota zeta. rewrite Hactive, Herr. reflexivity.
Qed.

(** [getGcalBusyBlocks] gives the marker of a failure to verify exactly
    when the staff member is connected and either no Google client can
    be had or the free/busy query fails; a response without an entry for
    the calendar counts as nothing busy.  It throws exactly when the
    request for the client throws. *)
Theorem getGcalBusyBlocks_unverifiable (id s e : Z) (sd : StaffDetails) :
  (outcome_of (getGcalBusyBlocks w id s e (Some sd)) = Return None
   <-> is_google_connected sd = true
       /\ (google_client w id = Return None
           \/ exists client message,
                google_client w id = Return (Some client)
                /\ freebusy client (or_default (google_calendar_id sd) "primary")
                            s e = Throw message))
  /\ (forall message,
        outcome_of (getGcalBusyBlocks w id s e (Some sd)) = Throw message
        <-> is_google_connected sd = true
            /\ google_client w id = Throw message).
Proof.
  unfold getGcalBusyBlocks, call, bind, ret, try_catch, outcome_of.
  destruct (is_google_connected sd); cbn [negb fst snd].
  - destruct (google_client w id) as [[client|]|message'] eqn:Eclient;
      cbn [fst snd].
    + destruct (freebusy client _ s e) as [[busy|]|message'] eqn:Efree;
        cbn [fst snd]; split.
      all: try (split; [intros H; discriminate H
                       | intros [_ [H | (c & m & H & H')]];
                         [discriminate H
                         | injection H as <-; rewrite Efree in H';
                           discriminate H']]).
      all: try (intros message; split;
                [intros H; discriminate H | intros [_ H]; discriminate H]).
      split; [intros _ | reflexivity].
      split; [reflexivity | right]. exists client, message'. auto.
    + split.
      * split; [intros _; auto | reflexivity].
      * intros message; split;
          [intros H; discriminate H | intros [_ H]; discriminate H].
    + split.
      * split; [intros H; discriminate H
               | intros [_ [H | (c & m & H & _)]]; discriminate H].
      * intros message; split.
        -- intros H. injection H as <-. auto.
        -- intros [_ H]. injection H as <-. reflexivity.
  - split.
    + split; [intros H; discriminate H | intros [H _]; discriminate H].
    + intros message; split;
        [intros H; discriminate H | intros [H _]; discriminate H].
Qed.

End AvailabilityMore.

Lemma checkAvailability_never_available_witness :
  isAvailable (unavailable [reason_internal]) = false
  /\ exists reason,
       reasons (unavailable [reason_internal]) = [reason]
       /\ (reason = reason_timezone \/ reason = reason_staff
           \/ reason = reason_day \/ reason = reason_internal).
Proof.
  apply (checkAvailability_never_available Scenario.calm
           (module_helpers Scenario.calm) (Scenario.request 720 750 None)).
  vm_compute. reflexivity.
Defined.

Lemma checkAvailability_only_reads_witness :
  DbQuery (SelectWorkingHours 1 4) = DbQuery (SelectStaff 1 false)
  \/ DbQuery (SelectWorkingHours 1 4) = DbQuery (SelectWorkingHours 1 4).
Proof.
  apply (checkAvailability_only_reads Scenario.calm
           (Scenario.request 720 750 None)).
  vm_compute. tauto.
Defined.

Lemma failed_stage_ends_the_check_witness :
  checkAvailability Scenario.calm
    {| staffId := 2;
       newBookingStartTimeUTC := 720 * Scenario.minute;
       newBookingEndTimeUTC := 750 * Scenario.minute;
       bookingTimezone := "UTC";
       staffDetails := None;
       bookingIdToExclude := None |}
  = (Return (unavailable [reason_staff]), [DbQuery (SelectStaff 2 false)])
  /\ forall e,
       In e [DbQuery (SelectStaff 2 false)] ->
       e = DbQuery (SelectStaff 2 false).
Proof.
  split; [vm_compute; reflexivity|].
  apply (proj2 (failed_stage_ends_the_check Scenario.calm
                  {| staffId := 2;
                     newBookingStartTimeUTC := 720 * Scenario.minute;
                     newBookingEndTimeUTC := 750 * Scenario.minute;
                     bookingTimezone := "UTC";
                     staffDetails := None;
                     bookingIdToExclude := None |}
                  (unavailable [reason_staff])
                  [DbQuery (SelectStaff 2 false)]
                  ltac:(vm_compute; reflexivity))).
  reflexivity.
Defined.

Lemma lookup_errors_read_as_absence_witness :
  checkAvailability
    (Scenario.salon (fun q => match q with
                              | SelectStaff _ _ => Some "connection terminated"
                              | _ => None
                              end)
                    (fun _ => Return None))
    (Scenario.request 720 750 None)
  = (Return (unavailable [reason_staff]), [DbQuery (SelectStaff 1 false)]).
Proof.
  apply (proj1 (lookup_errors_read_as_absence
                  (Scenario.salon
                     (fun q => match q with
                               | SelectStaff _ _ => Some "connection terminated"
                               | _ => None
                               end)
                     (fun _ => Return None))
                  (Scenario.request 720 750 None) eq_refl)
               "connection terminated"); reflexivity.
Defined.

Lemma getGcalBusyBlocks_unverifiable_witness :
  outcome_of (getGcalBusyBlocks Scenario.google_down 1 0 1 (Some Scenario.alice))
  = Return None.
Proof.
  apply (proj1 (getGcalBusyBlocks_unverifiable Scenario.google_down 1 0 1
                  Scenario.alice)).
  split; [reflexivity | left; reflexivity].
Defined.

(** ** The listing of slots, continued *)

Section SlotListingMore.

Import SlotsRoute.

(** A busy block is cut at the bounds of the day, not dropped: the range
    kept for it starts at the later of its start and minute 0, ends at
    the earlier of its end and minute 1440, and holds at least one
    minute; a block that leaves no minute in the day is left out. *)
Theorem busy_minutes_clipped (d : Day) (blocks : list BusyBlock) (r : Range) :
  In r (busy_minutes d blocks) ->
  0 <= start r < end_ r /\ end_ r <= 1440
  /\ exists block,
       In block blocks
       /\ start r = Z.max (diff_minutes (bb_start block) (dayStart d)) 0
       /\ end_ r = Z.min (diff_minutes (bb_end block) (dayStart d)) 1440.
Proof.
  induction blocks as [|b rest IH]; simpl; [contradiction|].
  unfold to_day_minutes at 1.
  destruct (Z.ltb_spec (Z.max (diff_minutes (bb_start b) (dayStart d)) 0)
                       (Z.min (diff_minutes (bb_end b) (dayStart d)) 1440))
    as [Hlt | Hge].
  - intros [<- | Hin].
    + simpl. repeat split; try lia. exists b. auto.
    + destruct (IH Hin) as (H1 & H2 & block & Hb & H3).
      repeat split; try lia. exists block. auto.
  - intros Hin. destruct (IH Hin) as (H1 & H2 & block & Hb & H3).
    repeat split; try lia. exists block. auto.
Qed.

Lemma busy_minutes_clipped_witness :
  0 <= start (mkRange 0 30) < end_ (mkRange 0 30)
  /\ end_ (mkRange 0 30) <= 1440
  /\ exists block,
       In block [mkBusyBlock (- 30 * Scenario.minute) (30 * Scenario.minute)]
       /\ start (mkRange 0 30)
          = Z.max (diff_minutes (bb_start block) (dayStart Scenario.thursday)) 0
       /\ end_ (mkRange 0 30)
          = Z.min (diff_minutes (bb_end block) (dayStart Scenario.thursday))
                  1440.
Proof.
  apply (busy_minutes_clipped Scenario.thursday
           [mkBusyBlock (- 30 * Scenario.minute) (30 * Scenario.minute)]
           (mkRange 0 30)).
  vm_compute. tauto.
Defined.

(** Every range of the result lies within a working range (used for the
    slots of a staff member). *)
Lemma free_range_within_working (W B : list Range) (r : Range) :
  In r (calculateFreeIntervals W B) ->
  exists working,
    In working W /\ start working <= start r /\ end_ r <= end_ working.
Proof.
  intros Hin. unfold calculateFreeIntervals in Hin.
  destruct (fold_subtract_within _ _ _ Hin) as (free & Hfree & Hlo & Hhi & _).
  exists free. auto.
Qed.

(** A slot that is listed for a staff member carries the id and the name
    of that staff member, and its time is a minute [s] such that the
    service, from [s] to [s + duration], lies within the working hours of
    the day and meets none of the ranges of busy minutes that the route
    computes from the blocks that [getDbBusyBlocks] returned for the
    day.  (These are no blocks at all when the query was rejected, and
    the blocks are cut to whole minutes.) *)
Theorem listed_slot_fits (w : World) (d : Day) (serviceDuration : Z)
        (staff : StaffRef) (slots : list Slot) (slot : Slot) :
  outcome_of (staff_slots w d serviceDuration staff) = Return slots ->
  In slot slots ->
  slot_staffId slot = ref_staff_id staff
  /\ slot_staffName slot = ref_name staff
  /\ exists wi stored s,
       outcome_of (getWorkingInterval w (ref_staff_id staff) (dayOfWeek d))
       = Return (Some wi)
       /\ outcome_of (getDbBusyBlocks w (ref_staff_id staff) (dayStart d)
                        (dayEnd d) None) = Return stored
       /\ time slot = formatTime (Some s)
       /\ timeToMinutes (Some (wi_start wi)) <= s
       /\ s + serviceDuration <= timeToMinutes (Some (wi_end wi))
       /\ forall b x, In b (busy_minutes d stored) ->
                      s <= x < s + serviceDuration -> ~ inside x b.
Proof.
  unfold staff_slots, try_catch, bind, ret, outcome_of.
  destruct (getStaffDetails w (ref_staff_id staff) false)
    as [[[sd|]|m1] t1]; cbn [fst snd];
    try (intros H; injection H as <-; contradiction).
  destruct (is_active sd); cbn [negb fst snd];
    try (intros H; injection H as <-; contradiction).
  destruct (getWorkingInterval w (ref_staff_id staff) (dayOfWeek d))
    as [[[wi|]|m2] t2]; cbn [fst snd];
    try (intros H; injection H as <-; contradiction).
  destruct ((timeToMinutes (Some (wi_start wi)) <? 0)
            || (timeToMinutes (Some (wi_end wi))
                <=? timeToMinutes (Some (wi_start wi)))); cbn [fst snd];
    try (intros H; injection H as <-; contradiction).
  destruct (getDbBusyBlocks w (ref_staff_id staff) (dayStart d) (dayEnd d) None)
    as [[stored|m3] t3]; cbn [fst snd];
    try (intros H; injection H as <-; contradiction).
  destruct (getGcalBusyBlocks w (ref_staff_id staff) (dayStart d) (dayEnd d)
              (Some sd)) as [[gcal|m4] t4]; cbn [fst snd];
    try (intros H; injection H as <-; contradiction).
  intros H Hin. injection H as <-.
  unfold slots_for in Hin. apply in_map_iff in Hin as (s & <- & Hs).
  simpl. repeat split.
  exists wi, stored, s. repeat split.
  - apply generateSlots_sound in Hs as (r & Hr & Hlo & Hhi & _).
    apply free_range_within_working in Hr as (working & [<- | []] & Hw & _).
    simpl in Hw. lia.
  - apply generateSlots_sound in Hs as (r & Hr & Hlo & Hhi & _).
    apply free_range_within_working in Hr as (working & [<- | []] & _ & Hw).
    simpl in Hw. lia.
  - intros b x Hb Hx.
    apply generateSlots_sound in Hs as (r & Hr & Hlo & Hhi & _).
    apply (free_outside_busy x _ _ r b Hr).
    + apply in_or_app. left. exact Hb.
    + unfold inside. lia.
Qed.

End SlotListingMore.

Lemma listed_slot_fits_witness :
  SlotsRoute.slot_staffId (SlotsRoute.mkSlot "11:00" 1 "Alice") = 1
  /\ SlotsRoute.slot_staffName (SlotsRoute.mkSlot "11:00" 1 "Alice") = "Alice"
  /\ exists wi stored s,
       outcome_of (getWorkingInterval Scenario.calm 1 4) = Return (Some wi)
       /\ outcome_of (getDbBusyBlocks Scenario.calm 1 0 (Scenario.day - 1) None)
          = Return stored
       /\ "11:00" = formatTime (Some s)
       /\ timeToMinutes (Some (wi_start wi)) <= s
       /\ s + 30 <= timeToMinutes (Some (wi_end wi))
       /\ forall b x, In b (SlotsRoute.busy_minutes Scenario.thursday stored) ->
                      s <= x < s + 30 -> ~ inside x b.
Proof.
  apply (listed_slot_fits Scenario.calm Scenario.thursday 30 Scenario.alice_ref
           (match outcome_of (SlotsRoute.staff_slots Scenario.calm
                                Scenario.thursday 30 Scenario.alice_ref) with
            | Return v => v
            | Throw _ => []
            end)
           (SlotsRoute.mkSlot "11:00" 1 "Alice")).
  - vm_compute. reflexivity.
  - vm_compute. tauto.
Defined.

(** ** The merge of the slots *)

Section SlotMerge.

Import SlotsRoute.

Lemma add_slot_keys (g : SlotsByTime) (s : Slot) (k : string) :
  In k (map fst (add_slot g s)) <-> In k (map fst g) \/ k = time s.
Proof.
  induction g as [|[t sl] g IH]; simpl.
  - intuition.
  - destruct (String.eqb_spec t (time s)) as [-> | Hne]; simpl.
    + intuition.
    + rewrite IH. intuition.
Qed.

Lemma add_slot_NoDup (g : SlotsByTime) (s : Slot) :
  NoDup (map fst g) -> NoDup (map fst (add_slot g s)).
Proof.
  induction g as [|[t sl] g IH]; simpl; intros Hnd.
  - constructor; [intros [] | constructor].
  - inversion Hnd as [|? ? Hnotin Hnd']; subst.
    destruct (String.eqb_spec t (time s)) as [-> | Hne]; simpl.
    + constructor; assumption.
    + constructor; [|apply IH; assumption].
      rewrite add_slot_keys. intros [Hin | ->]; [contradiction | congruence].
Qed.

Lemma add_slot_entries (g : SlotsByTime) (s : Slot) t sl p :
  In (t, sl) (add_slot g s) -> In p sl ->
  (exists sl0, In (t, sl0) g /\ In p sl0)
  \/ (t = time s /\ p = (slot_staffId s, slot_staffName s)).
Proof.
  induction g as [|[t0 sl0] g IH]; simpl.
  - intros [H | []] Hp. injection H as <- <-.
    destruct Hp as [<- | []]. right. auto.
  - destruct (String.eqb_spec t0 (time s)) as [-> | Hne]; simpl.
    + intros [H | H] Hp.
      * injection H as <- <-.
        destruct (existsb _ sl0).
        -- left. exists sl0. auto.
        -- apply in_app_or in Hp as [Hp | [<- | []]].
           ++ left. exists sl0. auto.
           ++ right. auto.
      * left. exists sl. auto.
    + intros [H | H] Hp.
      * injection H as <- <-. left. exists sl0. auto.
      * destruct (IH H Hp) as [(sl1 & H1 & H2) | H1].
        -- left. exists sl1. auto.
        -- right. exact H1.
Qed.

Lemma add_slot_nonempty (g : SlotsByTime) (s : Slot) :
  (forall t sl, In (t, sl) g -> sl <> []) ->
  forall t sl, In (t, sl) (add_slot g s) -> sl <> [].
Proof.
  induction g as [|[t0 sl0] g IH]; simpl; intros Hne t sl.
  - intros [H | []]. injection H as <- <-. discriminate.
  - destruct (String.eqb t0 (time s)); simpl.
    + intros [H | H].
      * injection H as <- <-.
        specialize (Hne t0 sl0 (or_introl eq_refl)).
        destruct (existsb _ sl0); [exact Hne|].
        destruct sl0; [congruence | discriminate].
      * apply (Hne t sl). right. exact H.
    + intros [H | H].
      * injection H as <- <-. apply (Hne t0 sl0). left. reflexivity.
      * apply (IH (fun t' sl' H' => Hne t' sl' (or_intror H')) t sl H).
Qed.

(** A slot that is added is then offered at its time by its staff
    member, and what was offered stays offered. *)
Lemma add_slot_offers (g : SlotsByTime) (s : Slot) :
  (exists sl, In (time s, sl) (add_slot g s)
              /\ exists p, In p sl /\ fst p = slot_staffId s)
  /\ (forall t sl p, In (t, sl) g -> In p sl ->
        exists sl', In (t, sl') (add_slot g s) /\ In p sl').
Proof.
  induction g as [|[t0 sl0] g [IH1 IH2]]; simpl.
  - split.
    + eexists. split; [left; reflexivity|]. eexists. split; [left; reflexivity|].
      reflexivity.
    + intros t sl p [].
  - destruct (String.eqb_spec t0 (time s)) as [-> | Hne]; simpl.
    + split.
      * destruct (existsb (fun q => fst q =? slot_staffId s) sl0) eqn:Ex.
        -- apply existsb_exists in Ex as (q & Hq & Hid).
           apply Z.eqb_eq in Hid.
           exists sl0. split; [left; reflexivity|]. exists q. auto.
        -- eexists. split; [left; reflexivity|].
           exists (slot_staffId s, slot_staffName s).
           split; [apply in_or_app; right; left; reflexivity | reflexivity].
      * intros t sl p [H | H] Hp.
        -- injection H as <- <-. eexists. split; [left; reflexivity|].
           destruct (existsb _ sl0); [exact Hp | apply in_or_app; auto].
        -- exists sl. auto.
    + split.
      * destruct IH1 as (sl & Hsl & Hp). exists sl. auto.
      * intros t sl p [H | H] Hp.
        -- injection H as <- <-. exists sl0. auto.
        -- destruct (IH2 t sl p H Hp) as (sl' & H1 & H2). exists sl'. auto.
Qed.

Section Grouping.

Variable allSlots : list Slot.

Lemma group_facts (g : SlotsByTime) :
  NoDup (map fst g) ->
  (forall t sl, In (t, sl) g -> sl <> []) ->
  NoDup (map fst (fold_left add_slot allSlots g))
  /\ (forall t sl, In (t, sl) (fold_left add_slot allSlots g) -> sl <> [])
  /\ (forall k, In k (map fst (fold_left add_slot allSlots g))
                <-> In k (map fst g) \/ In k (map time allSlots))
  /\ (forall t sl p,
        In (t, sl) (fold_left add_slot allSlots g) -> In p sl ->
        (exists sl0, In (t, sl0) g /\ In p sl0)
        \/ In (mkSlot t (fst p) (snd p)) allSlots)
  /\ (forall s, In s allSlots ->
        exists sl, In (time s, sl) (fold_left add_slot allSlots g)
                   /\ exists p, In p sl /\ fst p = slot_staffId s).
Proof.
  revert g. induction allSlots as [|s l IH]; intros g Hnd Hne; simpl.
  - repeat split; auto.
    + intros [H | []]. exact H.
    + intros t sl p H Hp. left. exists sl. auto.
    + intros s [].
  - destruct (IH (add_slot g s) (add_slot_NoDup g s Hnd)
                 (add_slot_nonempty g s Hne)) as (H1 & H2 & H3 & H4 & H5).
    repeat split; auto.
    + intros Hk. apply H3 in Hk as [Hk | Hk]; [|auto].
      apply add_slot_keys in Hk as [Hk | ->]; auto.
    + intros [Hk | [<- | Hk]]; apply H3.
      * left. apply add_slot_keys. auto.
      * left. apply add_slot_keys. auto.
      * right. exact Hk.
    + intros t sl p Hin Hp.
      destruct (H4 t sl p Hin Hp) as [(sl0 & Hsl0 & Hp0) | Hl]; [|auto].
      destruct (add_slot_entries g s t sl0 p Hsl0 Hp0)
        as [(sl1 & Hsl1 & Hp1) | [-> ->]].
      * left. exists sl1. auto.
      * right. left. destruct s; reflexivity.
    + intros s' [<- | Hs'].
      * destruct (add_slot_offers g s) as [(sl & Hsl & p & Hp & Hid) _].
        clear H5.
        assert (Hkeep : forall l' g' t sl p,
                  In (t, sl) g' -> In p sl ->
                  exists sl', In (t, sl') (fold_left add_slot l' g')
                              /\ In p sl').
        { induction l' as [|s1 l' IHl]; intros g' t sl' p' Hin Hp'; simpl.
          - exists sl'. auto.
          - destruct (add_slot_offers g' s1) as [_ Hstay].
            destruct (Hstay t sl' p' Hin Hp') as (sl2 & Hin2 & Hp2).
            apply (IHl _ t sl2 p' Hin2 Hp2). }
        destruct (Hkeep l (add_slot g s) (time s) sl p Hsl Hp)
          as (sl' & Hsl' & Hp').
        exists sl'. split; [exact Hsl'|]. exists p. auto.
      * apply H5. exact Hs'.
Qed.

End Grouping.

Lemma pick_staff_some (parsedStaffId : option Z) t sl s :
  pick_staff parsedStaffId (t, sl) = Some s ->
  time s = t
  /\ In (slot_staffId s, slot_staffName s) sl
  /\ (forall id, parsedStaffId = Some id -> slot_staffId s = id).
Proof.
  unfold pick_staff. destruct sl as [|first rest]; [discriminate|].
  destruct parsedStaffId as [id|].
  - destruct (find (fun q => fst q =? id) (first :: rest)) as [q|] eqn:Ef;
      [|discriminate].
    intros H. injection H as <-. simpl.
    apply find_some in Ef as [Hq Hid]. apply Z.eqb_eq in Hid.
    repeat split.
    + destruct q; exact Hq.
    + intros id' H'. injection H' as <-. exact Hid.
  - intros H. injection H as <-. simpl. repeat split.
    + left. destruct first; reflexivity.
    + discriminate.
Qed.

Lemma in_filter_some {A} (l : list (option A)) (a : A) :
  In a (filter_some l) <-> In (Some a) l.
Proof.
  induction l as [|[b|] l IH]; simpl.
  - reflexivity.
  - rewrite IH. split; intros [H | H]; auto; [left; congruence|].
    injection H as ->. auto.
  - rewrite IH. split; [auto | intros [H | H]; [discriminate | auto]].
Qed.

Lemma picked_times_NoDup (parsedStaffId : option Z) (g : SlotsByTime) :
  NoDup (map fst g) ->
  NoDup (map time (filter_some (map (pick_staff parsedStaffId) g))).
Proof.
  induction g as [|[t sl] g IH]; cbn [map fst]; intros Hnd; [constructor|].
  inversion Hnd as [|? ? Hnotin Hnd']; subst.
  destruct (pick_staff parsedStaffId (t, sl)) as [s|] eqn:Ep;
    cbn [filter_some map]; [|apply IH; assumption].
  apply pick_staff_some in Ep as (<- & _).
  constructor; [|apply IH; assumption].
  intros Hin. apply Hnotin.
  apply in_map_iff in Hin as (s' & Ht & Hs').
  apply in_filter_some, in_map_iff in Hs' as ([t' sl'] & Hp & Hg).
  apply pick_staff_some in Hp as (Ht' & _).
  apply in_map_iff. exists (t', sl'). simpl. split; [congruence | exact Hg].
Qed.

Lemma insert_by_time_perm (x : Slot) (l : list Slot) :
  Permutation (insert_by_time x l) (x :: l).
Proof.
  induction l as [|y l IH]; simpl; [reflexivity|].
  destruct (String.leb (time x) (time y)); [reflexivity|].
  rewrite IH. apply perm_swap.
Qed.

Lemma sort_by_time_perm (l : list Slot) : Permutation (sort_by_time l) l.
Proof.
  induction l as [|x l IH]; simpl; [reflexivity|].
  rewrite insert_by_time_perm, IH. reflexivity.
Qed.

Lemma insert_by_time_sorted (x : Slot) (l : list Slot) :
  Sorted (fun a b => String.leb (time a) (time b) = true) l ->
  Sorted (fun a b => String.leb (time a) (time b) = true)
         (insert_by_time x l).
Proof.
  induction l as [|y l IH]; simpl; intros Hs.
  - repeat constructor.
  - destruct (String.leb (time x) (time y)) eqn:Hle.
    + constructor; [exact Hs | constructor; exact Hle].
    + inversion Hs as [|? ? Hs' Hhd]; subst.
      constructor; [apply IH; exact Hs'|].
      assert (Hyx : String.leb (time y) (time x) = true).
      { destruct (String.leb_total (time x) (time y)); congruence. }
      destruct l as [|z l]; simpl.
      * constructor. exact Hyx.
      * destruct (String.leb (time x) (time z)); constructor;
          [exact Hyx | inversion Hhd; assumption].
Qed.

Lemma sort_by_time_sorted (l : list Slot) :
  Sorted (fun a b => String.leb (time a) (time b) = true) (sort_by_time l).
Proof.
  induction l as [|x l IH]; simpl; [constructor|].
  apply insert_by_time_sorted, IH.
Qed.

(** The answer has one slot per time, in ascending order of the times. *)
Theorem final_slots_one_per_time (parsedStaffId : option Z)
        (allSlots : list Slot) :
  NoDup (map time (final_slots parsedStaffId allSlots))
  /\ Sorted (fun a b => String.leb (time a) (time b) = true)
            (final_slots parsedStaffId allSlots).
Proof.
  unfold final_slots, group_by_time. split; [|apply sort_by_time_sorted].
  eapply Permutation_NoDup.
  - apply Permutation_map. symmetry. apply sort_by_time_perm.
  - apply picked_times_NoDup.
    apply (group_facts allSlots []); [constructor | intros t sl []].
Qed.

Lemma final_slots_are_candidates_aux (parsedStaffId : option Z)
      (allSlots : list Slot) (s : Slot) :
  In s (final_slots parsedStaffId allSlots) ->
  In s allSlots
  /\ (forall id, parsedStaffId = Some id -> slot_staffId s = id).
Proof.
  unfold final_slots, group_by_time. intros Hin.
  apply (Permutation_in _ (sort_by_time_perm _)) in Hin.
  apply in_filter_some, in_map_iff in Hin as ([t sl] & Hp & Hg).
  apply pick_staff_some in Hp as (<- & Hsl & Hid).
  split; [|exact Hid].
  destruct (group_facts allSlots []) as (_ & _ & _ & Hfrom & _);
    [constructor | intros t sl' [] |].
  destruct (Hfrom _ _ _ Hg Hsl) as [(sl0 & [] & _) | Hall].
  destruct s; exact Hall.
Qed.

(** The answer invents nothing: each of its slots is one of the
    candidates, and when a staff member is requested each of its slots is
    of that staff member. *)
Theorem final_slots_are_candidates (parsedStaffId : option Z)
        (allSlots : list Slot) (s : Slot) :
  In s (final_slots parsedStaffId allSlots) ->
  In s allSlots
  /\ (forall id, parsedStaffId = Some id -> slot_staffId s = id).
Proof. apply final_slots_are_candidates_aux. Qed.

(** No time is lost: without a requested staff member the times of the
    answer are the times of the candidates, and with one they are the
    times at which that staff member is a candidate. *)
Theorem final_slots_times (parsedStaffId : option Z) (allSlots : list Slot)
        (t : string) :
  In t (map time (final_slots parsedStaffId allSlots))
  <-> exists s, In s allSlots /\ time s = t
                /\ forall id, parsedStaffId = Some id -> slot_staffId s = id.
Proof.
  split.
  - intros Hin. apply in_map_iff in Hin as (s & <- & Hs).
    apply final_slots_are_candidates_aux in Hs as [Hall Hid].
    exists s. auto.
  - intros (s & Hs & <- & Hid).
    unfold final_slots, group_by_time.
    destruct (group_facts allSlots []) as (_ & Hne & _ & _ & Hoffer);
      [constructor | intros t sl' [] |].
    destruct (Hoffer s Hs) as (sl & Hsl & p & Hp & Hpid).
    assert (Hpick : exists s', pick_staff parsedStaffId (time s, sl) = Some s').
    { unfold pick_staff. destruct sl as [|first rest]; [contradiction|].
      destruct parsedStaffId as [id|]; [|eauto].
      destruct (find (fun q => fst q =? id) (first :: rest)) eqn:Ef; [eauto|].
      exfalso. apply (find_none _ _ Ef) in Hp.
      rewrite Hpid, (Hid id eq_refl), Z.eqb_refl in Hp. discriminate Hp. }
    destruct Hpick as (s' & Hs').
    apply in_map_iff. exists s'. split.
    + apply pick_staff_some in Hs' as (Ht & _). exact Ht.
    + apply (Permutation_in _ (Permutation_sym (sort_by_time_perm _))).
      apply in_filter_some, in_map_iff. exists (time s, sl). auto.
Qed.

Lemma add_slot_inversion (g : SlotsByTime) (s : Slot) t sl :
  In (t, sl) (add_slot g s) ->
  In (t, sl) g
  \/ (t = time s
      /\ exists sl0, In (t, sl0) g
           /\ sl = (sl0 ++ [(slot_staffId s, slot_staffName s)])%list)
  \/ (t = time s /\ ~ In t (map fst g)
      /\ sl = [(slot_staffId s, slot_staffName s)]).
Proof.
  induction g as [|[t0 sl0] g IH]; simpl.
  - intros [H | []]. injection H as <- <-. right. right. auto.
  - destruct (String.eqb_spec t0 (time s)) as [-> | Hne]; simpl.
    + intros [H | H]; [|auto].
      injection H as <- <-.
      destruct (existsb _ sl0); [auto|].
      right. left. split; [reflexivity|]. exists sl0. auto.
    + intros [H | H]; [auto|].
      destruct (IH H) as [H1 | [(-> & sl1 & H1 & ->) | (-> & H1 & ->)]].
      * auto.
      * right. left. split; [reflexivity|]. exists sl1. auto.
      * right. right. repeat split; auto. intros [H2 | H2]; auto.
Qed.

Lemma find_last {A} (f : A -> bool) (l : list A) (a : A) :
  find f (l ++ [a])
  = match find f l with
    | Some x => Some x
    | None => if f a then Some a else None
    end.
Proof.
  induction l as [|b l IH]; simpl; [reflexivity|].
  destruct (f b); [reflexivity | exact IH].
Qed.

(** In the groups, the first staff member of a time is the one of the
    first candidate of that time. *)
Lemma group_first (allSlots : list Slot) t sl :
  In (t, sl) (group_by_time allSlots) ->
  exists s rest,
    find (fun c => String.eqb (time c) t) allSlots = Some s
    /\ sl = (slot_staffId s, slot_staffName s) :: rest.
Proof.
  revert t sl. induction allSlots as [|s l IH] using rev_ind; intros t sl.
  - intros [].
  - unfold group_by_time in *. rewrite fold_left_app. simpl.
    intros Hin. rewrite find_last.
    apply add_slot_inversion in Hin
      as [Hin | [(-> & sl0 & Hin & ->) | (-> & Hnew & ->)]].
    + destruct (IH _ _ Hin) as (s0 & rest & -> & ->). eauto.
    + destruct (IH _ _ Hin) as (s0 & rest & -> & ->).
      exists s0. eexists. split; [reflexivity|]. reflexivity.
    + assert (Hnone : find (fun c => String.eqb (time c) (time s)) l = None).
      { destruct (find _ l) as [c|] eqn:Ef; [exfalso | reflexivity].
        apply find_some in Ef as [Hc Ht]. apply String.eqb_eq in Ht.
        apply Hnew.
        destruct (group_facts l []) as (_ & _ & Hkeys & _);
          [constructor | intros ? ? [] |].
        apply Hkeys. right. rewrite <- Ht. apply in_map. exact Hc. }
      rewrite Hnone, String.eqb_refl. eauto.
Qed.

(** When no staff member is requested, the slot that the answer has for
    a time is the first candidate of that time: the first eligible staff
    member, in the order of the staff, who offers it. *)
Theorem final_slots_first_candidate (allSlots : list Slot) (s : Slot) :
  In s (final_slots None allSlots) ->
  find (fun c => String.eqb (time c) (time s)) allSlots = Some s.
Proof.
  unfold final_slots. intros Hin.
  apply (Permutation_in _ (sort_by_time_perm _)) in Hin.
  apply in_filter_some, in_map_iff in Hin as ([t sl] & Hp & Hg).
  destruct (group_first _ _ _ Hg) as (s0 & rest & Hfind & ->).
  simpl in Hp. injection Hp as <-. simpl.
  rewrite Hfind. f_equal.
  apply find_some in Hfind as [_ Ht]. apply String.eqb_eq in Ht.
  destruct s0; simpl in *. congruence.
Qed.

End SlotMerge.

Lemma final_slots_are_candidates_witness :
  In (SlotsRoute.mkSlot "09:00" 2 "Bea")
     [SlotsRoute.mkSlot "09:00" 1 "Alice"; SlotsRoute.mkSlot "09:00" 2 "Bea";
      SlotsRoute.mkSlot "09:15" 1 "Alice"]
  /\ (forall id, Some 2 = Some id ->
                 SlotsRoute.slot_staffId (SlotsRoute.mkSlot "09:00" 2 "Bea")
                 = id).
Proof.
  apply (final_slots_are_candidates (Some 2)
           [SlotsRoute.mkSlot "09:00" 1 "Alice";
            SlotsRoute.mkSlot "09:00" 2 "Bea";
            SlotsRoute.mkSlot "09:15" 1 "Alice"]).
  vm_compute. tauto.
Defined.

Lemma final_slots_times_witness :
  In "09:15"
     (map SlotsRoute.time
        (SlotsRoute.final_slots None
           [SlotsRoute.mkSlot "09:15" 1 "Alice";
            SlotsRoute.mkSlot "09:00" 2 "Bea";
            SlotsRoute.mkSlot "09:15" 2 "Bea"])).
Proof.
  apply (final_slots_times None
           [SlotsRoute.mkSlot "09:15" 1 "Alice";
            SlotsRoute.mkSlot "09:00" 2 "Bea";
            SlotsRoute.mkSlot "09:15" 2 "Bea"] "09:15").
  exists (SlotsRoute.mkSlot "09:15" 2 "Bea").
  split; [simpl; tauto | split; [reflexivity | discriminate]].
Defined.

Lemma final_slots_first_candidate_witness :
  find (fun c => String.eqb (SlotsRoute.time c) "09:15")
       [SlotsRoute.mkSlot "09:15" 1 "Alice"; SlotsRoute.mkSlot "09:00" 2 "Bea";
        SlotsRoute.mkSlot "09:15" 2 "Bea"]
  = Some (SlotsRoute.mkSlot "09:15" 1 "Alice").
Proof.
  apply (final_slots_first_candidate
           [SlotsRoute.mkSlot "09:15" 1 "Alice";
            SlotsRoute.mkSlot "09:00" 2 "Bea";
            SlotsRoute.mkSlot "09:15" 2 "Bea"]
           (SlotsRoute.mkSlot "09:15" 1 "Alice")).
  vm_compute. tauto.
Defined.

(** ** The listing of slots: failures *)

Section SlotListingFailures.

Import SlotsRoute.

Variable w : World.
Variable d : Day.

(** The function mapped over the eligible staff never throws; and when
    the request for the Google client throws for a staff member who is
    connected, that staff member contributes no slot (whereas a client
    that is merely missing leaves the external calendar out). *)
Theorem staff_slots_contains_failures (serviceDuration : Z) (staff : StaffRef) :
  (exists slots,
     outcome_of (staff_slots w d serviceDuration staff) = Return slots)
  /\ (forall sd message,
        outcome_of (getStaffDetails w (ref_staff_id staff) false)
        = Return (Some sd) ->
        is_google_connected sd = true ->
        google_client w (ref_staff_id staff) = Throw message ->
        outcome_of (staff_slots w d serviceDuration staff) = Return []).
Proof.
  split.
  - unfold staff_slots, try_catch, ret, outcome_of.
    destruct (_ <- getStaffDetails w (ref_staff_id staff) false ;; _)
      as [[value | message] t]; cbn [fst snd]; eauto.
  - intros sd message Hsd Hlinked Hclient.
    unfold staff_slots, getGcalBusyBlocks, try_catch, bind, ret, call,
           outcome_of in *.
    destruct (getStaffDetails w (ref_staff_id staff) false) as [o1 t1].
    simpl in Hsd. subst o1. cbn [fst snd].
    destruct (is_active sd); cbn [negb fst snd]; [|reflexivity].
    destruct (getWorkingInterval w (ref_staff_id staff) (dayOfWeek d))
      as [[[wi|]|m2] t2]; cbn [fst snd]; try reflexivity.
    destruct ((timeToMinutes (Some (wi_start wi)) <? 0)
              || (timeToMinutes (Some (wi_end wi))
                  <=? timeToMinutes (Some (wi_start wi)))); cbn [fst snd];
      [reflexivity|].
    destruct (getDbBusyBlocks w (ref_staff_id staff) (dayStart d) (dayEnd d)
                None) as [[stored|m3] t3]; cbn [fst snd]; try reflexivity.
    rewrite Hlinked, Hclient. reflexivity.
Qed.

(** [GET] never throws.  Without an active service of the given id it
    answers 404 after that one query; without eligible staff it answers
    the empty list; and when the database rejects the query of the
    service or the query of the staff it answers 500 with a message that
    shows nothing of the error. *)
Theorem GET_answers (parsedServiceId : Z) (parsedStaffId : option Z) :
  (exists response,
     outcome_of (GET w parsedServiceId d parsedStaffId) = Return response)
  /\ (business_timezone_missing w = false ->
      db_error w (SelectService parsedServiceId false) = None ->
      filter (fun r => (service_id r =? parsedServiceId) && service_is_active r)
             (services_table w) = [] ->
      GET w parsedServiceId d parsedStaffId
      = (Return (Error 404 ("Active service " ++ String_of_int parsedServiceId
                              ++ " not found.")),
         [DbQuery (SelectService parsedServiceId false)]))
  /\ (forall service services,
        business_timezone_missing w = false ->
        db_error w (SelectService parsedServiceId false) = None ->
        filter (fun r => (service_id r =? parsedServiceId)
                         && service_is_active r) (services_table w)
        = service :: services ->
        db_error w (SelectEligibleStaff parsedServiceId parsedStaffId) = None ->
        eligible_staff w parsedServiceId parsedStaffId = [] ->
        outcome_of (GET w parsedServiceId d parsedStaffId) = Return (Json []))
  /\ (forall message,
        business_timezone_missing w = false ->
        db_error w (SelectService parsedServiceId false) = Some message
        \/ (db_error w (SelectService parsedServiceId false) = None
            /\ filter (fun r => (service_id r =? parsedServiceId)
                                && service_is_active r) (services_table w)
               <> []
            /\ db_error w (SelectEligibleStaff parsedServiceId parsedStaffId)
               = Some message) ->
        outcome_of (GET w parsedServiceId d parsedStaffId)
        = Return (Error 500 "Internal server error while fetching slots.")).
Proof.
  repeat split.
  - unfold GET, query, call, bind, ret, try_catch, outcome_of.
    destruct (business_timezone_missing w); cbn [fst snd]; [eauto|].
    destruct (db_error w (SelectService parsedServiceId false));
      cbn [fst snd]; [eauto|].
    destruct (filter _ (services_table w)) as [|service services];
      cbn [fst snd]; [eauto|].
    destruct (db_error w (SelectEligibleStaff parsedServiceId parsedStaffId));
      cbn [fst snd]; [eauto|].
    destruct (eligible_staff w parsedServiceId parsedStaffId) as [|staff rest];
      cbn [fst snd]; [eauto|].
    pose proof (all_slots_outcome w d (duration_minutes service) (staff :: rest))
      as Hall.
    destruct (all_slots w d (duration_minutes service) (staff :: rest))
      as [out t].
    unfold outcome_of in Hall. simpl in Hall. subst out. cbn [fst snd]. eauto.
  - intros Hzone Herr Hnone.
    unfold GET, query, call, bind, ret, try_catch.
    rewrite Hzone, Herr, Hnone. reflexivity.
  - intros service services Hzone Herr Hrow Herr' Hnone.
    unfold GET, query, call, bind, ret, try_catch, outcome_of.
    rewrite Hzone, Herr, Hrow. cbn [fst snd]. rewrite Herr', Hnone. reflexivity.
  - intros message Hzone [Herr | (Hok & Hrow & Herr)];
      unfold GET, query, call, bind, ret, try_catch, outcome_of;
      rewrite Hzone.
    + rewrite Herr. reflexivity.
    + rewrite Hok.
      destruct (filter _ (services_table w)) as [|service services];
        [congruence|].
      cbn [fst snd]. rewrite Herr. reflexivity.
Qed.

End SlotListingFailures.

Lemma staff_slots_contains_failures_witness :
  outcome_of (SlotsRoute.staff_slots Scenario.google_rejects Scenario.thursday
                30 Scenario.alice_ref) = Return [].
Proof.
  apply (proj2 (staff_slots_contains_failures Scenario.google_rejects
                  Scenario.thursday 30 Scenario.alice_ref)
               Scenario.alice "token store unreachable"); reflexivity.
Defined.

Lemma GET_answers_witness :
  SlotsRoute.GET Scenario.calm 9 Scenario.thursday None
  = (Return (SlotsRoute.Error 404 "Active service 9 not found."),
     [DbQuery (SelectService 9 false)]).
Proof.
  destruct (GET_answers Scenario.calm Scenario.thursday 9 None)
    as (_ & Hmissing & _).
  apply Hmissing; reflexivity.
Defined.

(** ** The creation of a booking, continued *)

Section BookingCreationMore.

Import BookingsRoute TraceWords.

Lemma closed_here (q : Query) : closed_by q [DbQuery q; ClientRelease].
Proof. exists []. split; [reflexivity | constructor]. Qed.

Lemma closed_cons (q : Query) (e : Event) (t : list Event) :
  inner_event e -> closed_by q t -> closed_by q (e :: t).
Proof.
  intros He (mid & -> & Hmid). exists (e :: mid).
  split; [reflexivity | constructor; assumption].
Qed.

Lemma closed_app (q : Query) (l t : list Event) :
  Forall inner_event l -> closed_by q t -> closed_by q (l ++ t).
Proof.
  intros Hl (mid & -> & Hmid). exists (l ++ mid)%list.
  split; [apply app_assoc | apply Forall_app; auto].
Qed.

Lemma lookups_inner (l : list Event) :
  (forall e, In e l ->
     exists id d,
       e = DbQuery (SelectStaff id false)
       \/ e = DbQuery (SelectWorkingHours id d)) ->
  Forall inner_event l.
Proof.
  intros Hcalls. apply Forall_forall. intros e He.
  destruct (Hcalls e He) as (id & d & [-> | ->]); split; discriminate.
Qed.

Ltac close_trace :=
  repeat first [rewrite <- app_assoc | progress cbn [app]];
  repeat first
    [ apply closed_here
    | apply closed_cons; [split; discriminate|]
    | apply closed_app; [apply lookups_inner; assumption|] ].

(** [POST] uses the client of the pool with discipline.  Either it calls
    nothing (the request is refused before the database is reached), or
    the pool gives no client, or it takes one client and ends with
    [ROLLBACK] followed by the release of the client, which is released
    once: no transaction of [POST] is left open, and none is closed by a
    commit. *)
Theorem POST_closes_transaction (w : World) (b : Body) (r : Response)
        (t : list Event) :
  POST w b = (Return r, t) ->
  t = []
  \/ t = [PoolConnect]
  \/ exists rest, t = PoolConnect :: rest /\ closed_by Rollback rest.
Proof.
  intros H. run_post H.
  all: injection H as <- <-.
  all: first
    [ left; reflexivity
    | right; left; reflexivity
    | right; right; eexists; split; [reflexivity | solve [close_trace]] ].
Qed.

(** [POST] never throws: every error, also an error of the rollback, is
    turned into an answer. *)
Theorem POST_always_answers (w : World) (b : Body) :
  exists r, outcome_of (POST w b) = Return r.
Proof.
  destruct (POST w b) as [out t] eqn:H. run_post H.
  all: injection H as <- <-.
  all: eexists; reflexivity.
Qed.


Lemma includes_after (a rest sub : string) :
  includes rest sub = true -> includes (a ++ rest) sub = true.
Proof.
  intros H. induction a as [|c a IH]; simpl; [exact H|].
  rewrite IH. apply orb_true_r.
Qed.

(** A booking for a service that does not exist or is not active is
    refused as an error of the client: the answer is 400 with the
    message that names the service, after the transaction that was begun
    is rolled back and the client released; nothing else is read or
    written.  The id of the service is one that a JavaScript number
    holds exactly. *)
Theorem unknown_service_refused (w : World) (b : Body)
        (parsedServiceId parsedStaffId : Z) :
  falsy (Some (serviceId b)) || falsy (Some (body_staffId b))
  || falsy (Some (date b)) || falsy (Some (body_time b))
  || falsy (Some (timezone b)) || falsy (Some (clientName b))
  || falsy (Some (clientEmail b)) = false ->
  tz_zone_known w (timezone b) = true ->
  parseInt (serviceId b) = Some parsedServiceId ->
  Z.abs parsedServiceId <= 9007199254740991 ->
  parseInt (body_staffId b) = Some parsedStaffId ->
  business_timezone_missing w = false ->
  pool_connect_error w = None ->
  db_error w Begin = None ->
  db_error w (SelectService parsedServiceId true) = None ->
  filter (fun r => (service_id r =? parsedServiceId) && service_is_active r)
         (services_table w) = [] ->
  POST w b
  = (Return (Failed 400 ("Active service with ID "
                           ++ String_of_int parsedServiceId
                           ++ " not found or is inactive.")),
     [PoolConnect; DbQuery Begin; DbQuery (SelectService parsedServiceId true);
      DbQuery Rollback; ClientRelease]).
Proof.
  intros Hfields Hzone Hservice _ Hstaff Hbusiness Hpool Hbegin Hselect Hnone.
  unfold POST, transaction, getServiceDetails, finally, try_catch, bind, ret,
         throw, query, call.
  rewrite Hfields, Hzone, Hservice, Hstaff, Hbusiness, Hpool, Hbegin.
  cbn [negb fst snd app]. rewrite Hselect, Hnone. cbn [fst snd app].
  unfold error_response.
  assert (Hmsg : includes ("Active service with ID "
                             ++ String_of_int parsedServiceId
                             ++ " not found or is inactive.")
                          "not found or is inactive" = true).
  { apply (includes_after "Active service with ID ").
    apply includes_after. reflexivity. }
  rewrite Hmsg. cbn [orb].
  destruct (db_error w Rollback); reflexivity.
Qed.

End BookingCreationMore.

Lemma POST_closes_transaction_witness :
  exists rest,
    [PoolConnect; DbQuery Begin; DbQuery (SelectService 1 true);
     DbQuery (SelectStaff 1 true);
     DbQuery (SelectCustomerByEmail "bob@example.org");
     DbQuery (InsertCustomer "Bob" "bob@example.org" None);
     DbQuery (SelectWorkingHours 1 4); DbQuery Rollback; ClientRelease]
    = PoolConnect :: rest
    /\ TraceWords.closed_by Rollback rest.
Proof.
  destruct (POST_closes_transaction Scenario.calm Scenario.noon_booking
              (BookingsRoute.Unavailable [reason_internal])
              [PoolConnect; DbQuery Begin; DbQuery (SelectService 1 true);
               DbQuery (SelectStaff 1 true);
               DbQuery (SelectCustomerByEmail "bob@example.org");
               DbQuery (InsertCustomer "Bob" "bob@example.org" None);
               DbQuery (SelectWorkingHours 1 4); DbQuery Rollback;
               ClientRelease])
    as [H | [H | H]].
  - vm_compute. reflexivity.
  - discriminate H.
  - discriminate H.
  - exact H.
Defined.


Lemma unknown_service_refused_witness :
  BookingsRoute.POST Scenario.calm
    (BookingsRoute.mkBody "9" "1" "1970-01-01" "12:00" "UTC" "Bob"
                          "bob@example.org" None None)
  = (Return (BookingsRoute.Failed 400
               ("Active service with ID " ++ String_of_int 9
                  ++ " not found or is inactive.")),
     [PoolConnect; DbQuery Begin; DbQuery (SelectService 9 true);
      DbQuery Rollback; ClientRelease]).
Proof.
  apply (unknown_service_refused Scenario.calm
           (BookingsRoute.mkBody "9" "1" "1970-01-01" "12:00" "UTC" "Bob"
                                 "bob@example.org" None None) 9 1);
    first [reflexivity | vm_compute; discriminate].
Defined.

(** ** The working hours of a staff member: what the update accepts *)

Section WorkingHoursUpdate.

Import WorkingHoursRoute.

Lemma validate_from_accepts (workingHours : Z -> option Hours) (n : nat) :
  forall first day,
    validate_from workingHours first n = None ->
    first <= day < first + Z.of_nat n ->
    validate_day day (workingHours day) = None.
Proof.
  induction n as [|n IH]; intros first day Hok Hday; [lia|].
  cbn [validate_from] in Hok.
  destruct (validate_day first (workingHours first)) eqn:Hfirst;
    [discriminate Hok|].
  destruct (Z.eq_dec day first) as [->|Hne]; [exact Hfirst|].
  apply (IH (first + 1)); [exact Hok | lia].
Qed.

Lemma in_inserts_from (workingHours : Z -> option Hours) (n : nat) :
  forall first day h s e,
    first <= day < first + Z.of_nat n ->
    workingHours day = Some h ->
    start_time h = Some s -> end_time h = Some e ->
    s <> EmptyString -> e <> EmptyString ->
    In (day, s, e) (inserts_from workingHours first n).
Proof.
  induction n as [|n IH]; intros first day h s e Hday Hh Hs He Hns Hne; [lia|].
  cbn [inserts_from]. apply in_or_app.
  destruct (Z.eq_dec day first) as [->|Hother].
  - left. rewrite Hh, Hs, He.
    destruct s; [contradiction|]. destruct e; [contradiction|].
    left. reflexivity.
  - right. apply (IH (first + 1) day h); auto. lia.
Qed.

(** When the validation of an update accepts the payload, every day of
    the week that carries hours has a start and an end of the form
    HH:MM, the end is a time of day, the start read as minutes is below
    the end, and the day is among the rows that the update inserts. *)
Theorem accepted_hours_are_ordered (workingHours : Z -> option Hours)
        (day : Z) (h : Hours) :
  validate workingHours = None ->
  1 <= day <= 7 ->
  workingHours day = Some h ->
  exists s e,
    start_time h = Some s /\ end_time h = Some e
    /\ hh_mm s = true /\ hh_mm e = true
    /\ 0 <= timeToMinutes (Some e) <= 1439
    /\ timeToMinutes (Some s) < timeToMinutes (Some e)
    /\ In (day, s, e) (inserts workingHours).
Proof.
  intros Hok Hday Hh.
  pose proof (validate_from_accepts workingHours 7 1 day Hok ltac:(lia))
    as Hthis.
  rewrite Hh in Hthis. unfold validate_day in Hthis.
  destruct (start_time h) as [s|] eqn:Hs; [|discriminate Hthis].
  destruct (end_time h) as [e|] eqn:He;
    [|destruct s; discriminate Hthis].
  exists s, e.
  assert (Hns : s <> EmptyString)
    by (intros ->; discriminate Hthis).
  assert (Hne : e <> EmptyString)
    by (intros ->; destruct s; discriminate Hthis).
  destruct s as [|c s]; [contradiction|].
  destruct e as [|c' e]; [contradiction|].
  cbn [falsy orb] in Hthis.
  destruct (hh_mm (String c s)) eqn:Hfs; [|discriminate Hthis].
  destruct (hh_mm (String c' e)) eqn:Hfe; [|discriminate Hthis].
  cbn [negb orb] in Hthis.
  destruct (Z.leb_spec (timeToMinutes (Some (String c' e)))
                       (timeToMinutes (Some (String c s)))) as [|Hlt];
    [discriminate Hthis|].
  repeat split; try reflexivity; try exact Hlt.
  - destruct (timeToMinutes_bounds (Some (String c' e))) as [Hbad|]; [|lia].
    destruct (timeToMinutes_bounds (Some (String c s))) as [Hbad'|];
      unfold invalid in *; lia.
  - destruct (timeToMinutes_bounds (Some (String c' e))) as [Hbad|]; [|lia].
    destruct (timeToMinutes_bounds (Some (String c s))) as [Hbad'|];
      unfold invalid in *; lia.
  - unfold inserts.
    apply (in_inserts_from workingHours 7 1 day h); auto; lia.
Qed.

(** The validation compares the two times as numbers, the invalid marker
    included: a start of the form HH:MM that is no time of day, such as
    24:00, is accepted with every end that is a time of day. *)
Theorem out_of_range_start_accepted (day : Z) (s e : string) :
  hh_mm s = true -> hh_mm e = true ->
  timeToMinutes (Some s) = invalid ->
  timeToMinutes (Some e) <> invalid ->
  validate_day day (Some {| start_time := Some s; end_time := Some e |})
  = None.
Proof.
  intros Hfs Hfe Hs He.
  unfold validate_day. cbn [start_time end_time].
  destruct s as [|c s]; [discriminate Hfs|].
  destruct e as [|c' e]; [discriminate Hfe|].
  cbn [falsy orb]. rewrite Hfs, Hfe. cbn [negb orb].
  rewrite Hs.
  destruct (timeToMinutes_bounds (Some (String c' e))) as [Hbad|Hin];
    [contradiction|].
  destruct (Z.leb_spec (timeToMinutes (Some (String c' e))) invalid) as [Hle|];
    [unfold invalid in Hle; lia | reflexivity].
Qed.

End WorkingHoursUpdate.

Lemma accepted_hours_are_ordered_witness :
  exists s e,
    Some "09:00" = Some s /\ Some "17:30" = Some e
    /\ WorkingHoursRoute.hh_mm s = true /\ WorkingHoursRoute.hh_mm e = true
    /\ 0 <= timeToMinutes (Some e) <= 1439
    /\ timeToMinutes (Some s) < timeToMinutes (Some e)
    /\ In (2, s, e)
          (WorkingHoursRoute.inserts
             (fun day =>
                if day =? 2
                then Some {| WorkingHoursRoute.start_time := Some "09:00";
                             WorkingHoursRoute.end_time := Some "17:30" |}
                else None)).
Proof.
  apply (accepted_hours_are_ordered
           (fun day =>
              if day =? 2
              then Some {| WorkingHoursRoute.start_time := Some "09:00";
                           WorkingHoursRoute.end_time := Some "17:30" |}
              else None)
           2
           {| WorkingHoursRoute.start_time := Some "09:00";
              WorkingHoursRoute.end_time := Some "17:30" |}).
  - vm_compute. reflexivity.
  - lia.
  - reflexivity.
Defined.

Lemma out_of_range_start_accepted_witness :
  WorkingHoursRoute.validate_day 1
    (Some {| WorkingHoursRoute.start_time := Some "24:00";
             WorkingHoursRoute.end_time := Some "10:00" |})
  = None.
Proof.
  apply (out_of_range_start_accepted 1 "24:00" "10:00").
  - reflexivity.
  - reflexivity.
  - vm_compute. reflexivity.
  - vm_compute. discriminate.
Defined.
